(** * shells/abstract.go: the shell-agnostic build-script generator

    [AbstractShell] turns a build description into an ordered sequence of
    calls on a [ShellWriter].  The writer is append-only, so one generation
    pass is modelled as the list of calls it makes, together with an outcome
    that records whether the Go code ran to completion or panicked. *)

From Stdlib Require Import ZArith Ascii String List Bool Lia DecimalString.
From Stdlib Require DecimalPos DecimalZ.
From stdpp Require Import base option gmap strings.

Import ListNotations.
Local Open Scope string_scope.
Local Open Scope list_scope.

#[local] Set Warnings "-register-all".

(** ** Dynamically typed values ([interface{}])

    Feature options arrive as decoded YAML/JSON; a missing map key and an
    untyped nil are both [VNil]. *)
Inductive value : Type :=
| VNil
| VBool (b : bool)
| VInt (n : Z)
| VString (s : string)
| VList (l : list value)
| VMap (m : gmap string value).

(** ** The data model of package [common], as far as abstract.go reads it *)

Record BuildVariable : Type := mkBuildVariable {
  Key : string;
  Value : string;
  Public : bool;
  Internal : bool;
  File : bool
}.

Record RunnerConfig : Type := mkRunnerConfig {
  URL : string;
  DisableVerbose : option bool      (* *bool *)
}.

Record BuildArtifacts : Type := mkBuildArtifacts {
  Filename : string
}.

(** [common.BuildInfo]: one entry of [DependsOnBuilds]. *)
Record BuildInfo : Type := mkBuildInfo {
  dep_ID : Z;
  dep_Name : string;
  dep_Token : string;
  Artifacts : option BuildArtifacts (* *BuildArtifacts, nil when absent *)
}.

(** The client used to report to the controlling server; abstract.go only
    tests it against nil. *)
Inductive NetworkClient : Type := network_client.

(** [Runner] is a [*RunnerConfig] in the source, read at the first
    iteration of the loop of [GenerateCommands] and by the download and
    upload helpers once the companion path is known to be non-empty.  The
    development covers builds that have a runner configuration: a build is
    owned by a runner, and what a run on a nil [Runner] does is not
    described here. *)
Record Build : Type := mkBuild {
  ID : Z;
  Name : string;
  Token : string;
  RepoURL : string;
  Sha : string;
  RefName : string;
  AllowGitFetch : bool;
  Commands : string;
  Options : gmap string value;
  DependsOnBuilds : list BuildInfo;
  Network : option NetworkClient;
  Runner : RunnerConfig;
  TLSCAChain : string
}.

Record ShellScriptInfo : Type := mkShellScriptInfo {
  info_Build : Build;
  RunnerCommand : string
}.

(** Methods of [common.Build] and the standard library's [path.Join], whose
    bodies live outside this file.  They are pure functions of the build and
    are taken as parameters of the development. *)
Class Externals : Type := {
  FullProjectDir : Build -> string;
  GetAllVariables : Build -> list BuildVariable;
  CacheFile : Build -> string;
  CacheFileForRef : Build -> string -> string;
  path_Join : list string -> string
}.

(** ** ShellWriter calls *)
Inductive Instr : Type :=
| IVariable (variable : BuildVariable)
| ICommand (command : string) (arguments : list string)
| ILine (text : string)
| IIfDirectory (path : string)
| IIfFile (file : string)
| IElse
| IEndIf
| ICd (path : string)
| IRmDir (path : string)
| IRmFile (path : string)
| IPrint (fmt : string) (arguments : list value)
| INotice (fmt : string) (arguments : list value)
| IWarning (fmt : string) (arguments : list value)
| IError (fmt : string) (arguments : list value)
| IEmptyLine.

(** ** The generation monad: calls made so far, and how the run ended *)
Inductive result (A : Type) : Type :=
| Ok (a : A)
| Panicked (msg : string).
Arguments Ok {A} a.
Arguments Panicked {A} msg.

Definition Gen (A : Type) : Type := (list Instr * result A)%type.

Definition ret {A} (a : A) : Gen A := ([], Ok a).

Definition panic {A} (msg : string) : Gen A := ([], Panicked msg).

Definition emit (i : Instr) : Gen unit := ([i], Ok tt).

Definition bind {A B} (m : Gen A) (f : A -> Gen B) : Gen B :=
  match m with
  | (w1, Ok a) => let '(w2, r) := f a in (w1 ++ w2, r)
  | (w1, Panicked msg) => (w1, Panicked msg)
  end.

Notation "x <- c1 ;; c2" := (bind c1 (fun x => c2))
  (at level 100, c1 at next level, right associativity).
Notation "c1 ;; c2" := (bind c1 (fun _ => c2))
  (at level 100, right associativity).

(** [for _, x := range l { body }] *)
Fixpoint forEach {A} (l : list A) (body : A -> Gen unit) : Gen unit :=
  match l with
  | [] => ret tt
  | x :: l' => body x ;; forEach l' body
  end.

(** The calls a run made, whether or not it completed. *)
Definition emitted {A} (m : Gen A) : list Instr := fst m.

Definition outcome {A} (m : Gen A) : result A := snd m.

(** ** Go built-ins and standard library used by the generator *)

(** [s[lo:hi]] on a string: panics unless [lo <= hi <= len(s)]. *)
Definition slice (s : string) (lo hi : nat) : Gen string :=
  if (lo <=? hi)%nat && (hi <=? String.length s)%nat
  then ret (substring lo (hi - lo) s)
  else panic "slice bounds out of range".

(** [strconv.Itoa] *)
Definition Itoa (n : Z) : string := NilZero.string_of_int (Z.to_int n).

Definition byte (n : nat) : ascii := ascii_of_nat n.

(** [strings.Split(s, "\n")]: the pieces between newline bytes; always at
    least one piece. *)
Fixpoint Split_nl (s : string) : list string :=
  match s with
  | EmptyString => [""]
  | String c s' =>
      if Ascii.eqb c (byte 10) then "" :: Split_nl s'
      else match Split_nl s' with
           | [] => [String c ""]
           | piece :: rest => String c piece :: rest
           end
  end.

(** [unicode.IsSpace] on the ASCII range. *)
Definition asciiSpace (c : ascii) : bool :=
  let n := nat_of_ascii c in
  ((9 <=? n)%nat && (n <=? 13)%nat) || (n =? 32)%nat.

(** [strings.TrimLeftFunc(s, unicode.IsSpace)], on the UTF-8 bytes of [s].
    Besides the ASCII white space, the runes with the White_Space property
    are U+0085, U+00A0, U+1680, U+2000..U+200A, U+2028, U+2029, U+202F,
    U+205F and U+3000; each is recognised by its encoding. *)
Definition space2 (c1 c2 : ascii) : bool :=
  (nat_of_ascii c1 =? 194)%nat &&
  ((nat_of_ascii c2 =? 133)%nat || (nat_of_ascii c2 =? 160)%nat).

Definition space3 (c1 c2 c3 : ascii) : bool :=
  let n1 := nat_of_ascii c1 in
  let n2 := nat_of_ascii c2 in
  let n3 := nat_of_ascii c3 in
  ((n1 =? 225)%nat && (n2 =? 154)%nat && (n3 =? 128)%nat) ||
  ((n1 =? 226)%nat && (n2 =? 128)%nat &&
     (((128 <=? n3)%nat && (n3 <=? 138)%nat) ||
      (n3 =? 168)%nat || (n3 =? 169)%nat || (n3 =? 175)%nat)) ||
  ((n1 =? 226)%nat && (n2 =? 129)%nat && (n3 =? 159)%nat) ||
  ((n1 =? 227)%nat && (n2 =? 128)%nat && (n3 =? 128)%nat).

Fixpoint trimLeft (s : string) : string :=
  match s with
  | EmptyString => EmptyString
  | String c1 s1 =>
      if asciiSpace c1 then trimLeft s1
      else match s1 with
           | String c2 s2 =>
               if space2 c1 c2 then trimLeft s2
               else match s2 with
                    | String c3 s3 =>
                        if space3 c1 c2 c3 then trimLeft s3 else s
                    | EmptyString => s
                    end
           | EmptyString => s
           end
  end.

Fixpoint rev_string (s acc : string) : string :=
  match s with
  | EmptyString => acc
  | String c s' => rev_string s' (String c acc)
  end.

(** The same scan from the end, on the reversed bytes: a rune's encoding is
    met last byte first. *)
Fixpoint trimLeftRev (s : string) : string :=
  match s with
  | EmptyString => EmptyString
  | String c1 s1 =>
      if asciiSpace c1 then trimLeftRev s1
      else match s1 with
           | String c2 s2 =>
               if space2 c2 c1 then trimLeftRev s2
               else match s2 with
                    | String c3 s3 =>
                        if space3 c3 c2 c1 then trimLeftRev s3 else s
                    | EmptyString => s
                    end
           | EmptyString => s
           end
  end.

Definition trimRight (s : string) : string :=
  rev_string (trimLeftRev (rev_string s "")) "".

(** [strings.TrimSpace] *)
Definition TrimSpace (s : string) : string := trimRight (trimLeft s).

(** Whether [s] begins, respectively ends, with an ASCII white-space byte. *)
Definition headSpace (s : string) : bool :=
  match s with
  | String c _ => asciiSpace c
  | EmptyString => false
  end.

Definition lastSpace (s : string) : bool := headSpace (rev_string s "").

(** Modelled from the spec: [helpers.BoolOrDefault] is not part of this file;
    verbose echo is enabled by default and disabled only by explicit runner
    configuration, so an unset flag yields the default. *)
Definition BoolOrDefault (v : option bool) (def : bool) : bool :=
  match v with
  | Some b => b
  | None => def
  end.

(** Modelled from the spec: [helpers.ToConfigMap] is not part of this file;
    a feature configuration that is not map-shaped is "not configured". *)
Definition ToConfigMap (list : value) : option (gmap string value) :=
  match list with
  | VMap m => Some m
  | _ => None
  end.

(** [m[key]] on a [map[string]interface{}]: nil when the key is absent. *)
Definition index (m : gmap string value) (key : string) : value :=
  default VNil (m !! key).

(** ** The generator *)
Section AbstractShell.
Context `{Externals}.

Definition writeCdBuildDir (info : ShellScriptInfo) : Gen unit :=
  emit (ICd (FullProjectDir (info_Build info))).

Definition writeExports (info : ShellScriptInfo) : Gen unit :=
  forEach (GetAllVariables (info_Build info))
          (fun variable => emit (IVariable variable)).

Definition writeTLSCAInfo (build : Build) (key : string) : Gen unit :=
  if negb (String.eqb (TLSCAChain build) "") then
    emit (IVariable {| Key := key;
                       Value := TLSCAChain build;
                       Public := true;
                       Internal := true;
                       File := true |})
  else ret tt.

Definition writeCloneCmd (build : Build) (projectDir : string) : Gen unit :=
  emit (INotice "Cloning repository..." []) ;;
  emit (IRmDir projectDir) ;;
  emit (ICommand "git" ["clone"; RepoURL build; projectDir]) ;;
  emit (ICd projectDir).

Definition writeFetchCmd (build : Build) (projectDir gitDir : string)
  : Gen unit :=
  emit (IIfDirectory gitDir) ;;
  emit (INotice "Fetching changes..." []) ;;
  emit (ICd projectDir) ;;
  emit (ICommand "git" ["clean"; "-ffdx"]) ;;
  emit (ICommand "git" ["reset"; "--hard"]) ;;
  emit (ICommand "git" ["remote"; "set-url"; "origin"; RepoURL build]) ;;
  emit (ICommand "git" ["fetch"; "origin"]) ;;
  emit IElse ;;
  writeCloneCmd build projectDir ;;
  emit IEndIf.

Definition writeCheckoutCmd (build : Build) : Gen unit :=
  sha8 <- slice (Sha build) 0 8 ;;
  emit (INotice "Checking out %s as %s..."
                [VString sha8; VString (RefName build)]) ;;
  emit (ICommand "git" ["checkout"; Sha build]).

Definition extractFiles (runnerCommand archiveType archivePath : string)
  : Gen unit :=
  if String.eqb runnerCommand "" then
    emit (IWarning "The %s is not supported in this executor."
                   [VString archiveType])
  else
    let args := ["extract"; "--file"; archivePath] in
    emit (INotice "Restoring %s..." [VString archiveType]) ;;
    emit (ICommand runnerCommand args).

Definition downloadArtifacts (runner : RunnerConfig) (build : BuildInfo)
    (runnerCommand archivePath : string) : Gen unit :=
  if String.eqb runnerCommand "" then
    emit (IWarning
            "The artifacts downloading is not supported in this executor." [])
  else
    let args := ["artifacts"; "--download";
                 "--url"; URL runner;
                 "--token"; dep_Token build;
                 "--id"; Itoa (dep_ID build);
                 "--file"; archivePath] in
    emit (INotice "Downloading artifacts for %s (%d)..."
                  [VString (dep_Name build); VInt (dep_ID build)]) ;;
    emit (ICommand runnerCommand args).

Definition uploadArtifacts (build : Build)
    (runnerCommand archivePath : string) : Gen unit :=
  if String.eqb runnerCommand "" then
    emit (IWarning
            "The artifacts uploading is not supported in this executor." [])
  else
    let args := ["artifacts";
                 "--url"; URL (Runner build);
                 "--token"; Token build;
                 "--id"; Itoa (ID build);
                 "--file"; archivePath] in
    emit (INotice "Uploading artifacts..." []) ;;
    emit (ICommand runnerCommand args).

(** The [--path] arguments: one pair per entry of [paths] that is a string. *)
Fixpoint collectPaths (paths : list value) : list string :=
  match paths with
  | [] => []
  | VString file :: rest => "--path" :: file :: collectPaths rest
  | _ :: rest => collectPaths rest
  end.

Definition archiveArgs (hash : gmap string value) (archivePath : string)
  : list string :=
  let args := ["archive"; "--file"; archivePath] in
  let args :=
    match index hash "paths" with
    | VList paths => args ++ collectPaths paths
    | _ => args
    end in
  match index hash "untracked" with
  | VBool true => args ++ ["--untracked"]
  | _ => args
  end.

Definition archiveFiles (list : value)
    (runnerCommand archiveType archivePath : string) : Gen unit :=
  match ToConfigMap list with
  | None => ret tt
  | Some hash =>
      if String.eqb runnerCommand "" then
        emit (IWarning "The %s is not supported in this executor."
                       [VString archiveType])
      else
        let args := archiveArgs hash archivePath in
        if (List.length args <=? 3)%nat then ret tt
        else
          emit (INotice "Archiving %s..." [VString archiveType]) ;;
          emit (ICommand runnerCommand args)
  end.

(** The block of [GeneratePreBuild] under "Try to restore from main cache,
    if not found cache for master". *)
Definition restoreCache (info : ShellScriptInfo) : Gen unit :=
  let cacheFile := CacheFile (info_Build info) in
  let cacheFile2 := CacheFileForRef (info_Build info) "master" in
  let '(cacheFile, cacheFile2) :=
    if String.eqb cacheFile "" then (cacheFile2, "")
    else (cacheFile, cacheFile2) in
  if negb (String.eqb cacheFile "") then
    emit (IIfFile cacheFile) ;;
    extractFiles (RunnerCommand info) "cache" cacheFile ;;
    (if negb (String.eqb cacheFile2 "") then
       emit IElse ;;
       emit (IIfFile cacheFile2) ;;
       extractFiles (RunnerCommand info) "cache" cacheFile2 ;;
       emit IEndIf
     else ret tt) ;;
    emit IEndIf
  else ret tt.

(** The body of the loop of [GeneratePreBuild] under "Process all
    artifacts"; [continue] ends the iteration without a call. *)
Definition processArtifact (info : ShellScriptInfo) (otherBuild : BuildInfo)
  : Gen unit :=
  match Artifacts otherBuild with
  | None => ret tt
  | Some artifacts =>
      if String.eqb (Filename artifacts) "" then ret tt
      else
        downloadArtifacts (Runner (info_Build info)) otherBuild
                          (RunnerCommand info) (Filename artifacts) ;;
        extractFiles (RunnerCommand info) (dep_Name otherBuild)
                     (Filename artifacts) ;;
        emit (IRmFile (Filename artifacts))
  end.

Definition GeneratePreBuild (info : ShellScriptInfo) : Gen unit :=
  writeExports info ;;
  let build := info_Build info in
  let projectDir := FullProjectDir build in
  let gitDir := path_Join [FullProjectDir build; ".git"] in
  writeTLSCAInfo (info_Build info) "GIT_SSL_CAINFO" ;;
  writeTLSCAInfo (info_Build info) "CI_SERVER_TLS_CA_FILE" ;;
  (if AllowGitFetch build
   then writeFetchCmd build projectDir gitDir
   else writeCloneCmd build projectDir) ;;
  writeCheckoutCmd build ;;
  restoreCache info ;;
  forEach (DependsOnBuilds (info_Build info)) (processArtifact info).

Definition GenerateCommands (info : ShellScriptInfo) : Gen unit :=
  writeExports info ;;
  writeCdBuildDir info ;;
  let commands := Commands (info_Build info) in
  let commands := TrimSpace commands in
  forEach (Split_nl commands) (fun command =>
    let command := TrimSpace command in
    (if negb (BoolOrDefault (DisableVerbose (Runner (info_Build info))) false)
     then
       if negb (String.eqb command "")
       then emit (INotice "$ %s" [VString command])
       else emit IEmptyLine
     else ret tt) ;;
    emit (ILine command)).

Definition GeneratePostBuild (info : ShellScriptInfo) : Gen unit :=
  writeExports info ;;
  writeCdBuildDir info ;;
  writeTLSCAInfo (info_Build info) "CI_SERVER_TLS_CA_FILE" ;;
  (let cacheFile := CacheFile (info_Build info) in
   if negb (String.eqb cacheFile "") then
     archiveFiles (index (Options (info_Build info)) "cache")
                  (RunnerCommand info) "cache" cacheFile
   else ret tt) ;;
  match Network (info_Build info) with
  | Some _ =>
      archiveFiles (index (Options (info_Build info)) "artifacts")
                   (RunnerCommand info) "artifacts" "artifacts.zip" ;;
      emit (IIfFile "artifacts.zip") ;;
      uploadArtifacts (info_Build info) (RunnerCommand info)
                      "artifacts.zip" ;;
      emit (IRmFile "aritfacts.zip") ;;
      emit IEndIf
  | None => ret tt
  end.

End AbstractShell.

(** ** Reading an instruction sequence *)

Definition isVariable (i : Instr) : bool :=
  match i with IVariable _ => true | _ => false end.

Definition isLine (i : Instr) : bool :=
  match i with ILine _ => true | _ => false end.

Definition isIfDirectory (i : Instr) : bool :=
  match i with IIfDirectory _ => true | _ => false end.

Definition isRmFile (i : Instr) : bool :=
  match i with IRmFile _ => true | _ => false end.

(** The removal of the artifact archive [artifacts.zip]. *)
Definition removesArchive (i : Instr) : bool :=
  match i with
  | IRmFile f => String.eqb f "artifacts.zip"
  | _ => false
  end.

(** An instruction that neither opens, switches nor closes a conditional. *)
Definition plain (i : Instr) : bool :=
  match i with
  | IIfDirectory _ | IIfFile _ | IElse | IEndIf => false
  | _ => true
  end.

(** An invocation of the companion executable's [artifacts] sub-command. *)
Definition isArtifactsCommand (i : Instr) : bool :=
  match i with
  | ICommand _ (a :: _) => String.eqb a "artifacts"
  | _ => false
  end.

(** An open conditional: the instruction that opened it, and whether its
    [Else] has been passed. *)
Definition frame : Type := (Instr * bool)%type.

(** The conditionals open after [l], starting from [stack]; [None] when an
    [Else] or [EndIf] has no open conditional to act on, or a conditional
    gets a second [Else]. *)
Fixpoint run (stack : list frame) (l : list Instr) : option (list frame) :=
  match l with
  | [] => Some stack
  | i :: l' =>
      match i with
      | IIfDirectory _ | IIfFile _ => run ((i, false) :: stack) l'
      | IElse =>
          match stack with
          | (c, false) :: st => run ((c, true) :: st) l'
          | _ => None
          end
      | IEndIf =>
          match stack with
          | _ :: st => run st l'
          | [] => None
          end
      | _ => run stack l'
      end
  end.

Definition wellNested (l : list Instr) : bool :=
  match run [] l with
  | Some [] => true
  | _ => false
  end.

(** Every file-existence check of [l], with the conditionals enclosing it
    (innermost first). *)
Fixpoint fileChecks (stack : list frame) (l : list Instr)
  : list (string * list frame) :=
  match l with
  | [] => []
  | i :: l' =>
      match i with
      | IIfFile f => (f, stack) :: fileChecks ((i, false) :: stack) l'
      | IIfDirectory _ => fileChecks ((i, false) :: stack) l'
      | IElse =>
          match stack with
          | (c, _) :: st => fileChecks ((c, true) :: st) l'
          | [] => fileChecks [] l'
          end
      | IEndIf => fileChecks (tl stack) l'
      | _ => fileChecks stack l'
      end
  end.

(** The text a backend prints for a formatted call, for the two verbs the
    generator uses: [%s] with a string and [%d] with an integer. *)
Fixpoint Sprintf (fmt : string) (args : list value) : string :=
  match fmt with
  | EmptyString => EmptyString
  | String c tail =>
      if Ascii.eqb c "%"%char then
        match tail, args with
        | String v rest, [] =>
            if Ascii.eqb v "%"%char then String c (Sprintf rest args)
            else String c (Sprintf tail args)
        | String v rest, VString s :: args' =>
            if Ascii.eqb v "s"%char then String.append s (Sprintf rest args')
            else String c (Sprintf tail args)
        | String v rest, VInt n :: args' =>
            if Ascii.eqb v "d"%char
            then String.append (Itoa n) (Sprintf rest args')
            else String c (Sprintf tail args)
        | _, _ => String c (Sprintf tail args)
        end
      else String c (Sprintf tail args)
  end.

(** ** The archive configuration, in the spec's words

    An ordered list of path patterns and an include-untracked boolean. *)
Definition stringEntries (l : list value) : list string :=
  omap (fun v => match v with VString s => Some s | _ => None end) l.

Definition pathPatterns (hash : gmap string value) : list string :=
  match hash !! "paths" with
  | Some (VList paths) => stringEntries paths
  | _ => []
  end.

Definition includeUntracked (hash : gmap string value) : bool :=
  match hash !! "untracked" with
  | Some (VBool b) => b
  | _ => false
  end.

(** The artifact filename of a dependency, when it has a non-empty one. *)
Definition artifactFile (d : BuildInfo) : option string :=
  match Artifacts d with
  | Some a => if String.eqb (Filename a) "" then None else Some (Filename a)
  | None => None
  end.

(** ** Sample inputs, for running the generator *)

(** A project whose cache paths are [primary] and [secondary]. *)
Definition envWithCache (primary secondary : string) : Externals := {|
  FullProjectDir := fun _ => "/builds/group/project";
  GetAllVariables := fun b =>
    [mkBuildVariable "CI_BUILD_REF" (Sha b) true true false];
  CacheFile := fun _ => primary;
  CacheFileForRef := fun _ _ => secondary;
  path_Join := String.concat "/"
|}.

Definition sampleEnv : Externals :=
  envWithCache "cache/feature.zip" "cache/master.zip".

Definition newline : string := String (byte 10) EmptyString.

Definition sampleOptions : gmap string value :=
  <["artifacts" :=
      VMap (<["paths" := VList [VString "dist"]]>
            (<["untracked" := VBool true]> ∅))]> ∅.

Definition sampleDependencies : list BuildInfo :=
  [mkBuildInfo 11 "compile" "t11" (Some (mkBuildArtifacts "compile.zip"));
   mkBuildInfo 12 "lint" "t12" (Some (mkBuildArtifacts ""));
   mkBuildInfo 13 "docs" "t13" (Some (mkBuildArtifacts "docs.zip"))].

Definition sampleBuildWith (sha : string) (fetch : bool) (chain : string)
    (network : option NetworkClient) : Build := {|
  ID := 42;
  Name := "rspec";
  Token := "secret";
  RepoURL := "https://gitlab.example.com/group/project.git";
  Sha := sha;
  RefName := "feature";
  AllowGitFetch := fetch;
  Commands :=
    String.append "  echo hi"
      (String.append newline (String.append newline "  ls  "));
  Options := sampleOptions;
  DependsOnBuilds := sampleDependencies;
  Network := network;
  Runner := mkRunnerConfig "https://gitlab.example.com/ci" None;
  TLSCAChain := chain
|}.

Definition sampleSha : string := "1a2b3c4d5e6f708192a3b4c5d6e7f8091a2b3c4d".

Definition sampleBuild : Build :=
  sampleBuildWith sampleSha true "-----BEGIN CERTIFICATE-----"
                  (Some network_client).

Definition sampleInfo : ShellScriptInfo :=
  mkShellScriptInfo sampleBuild "gitlab-runner".

(** ** Further parts of the generator and of its output *)

(** [GetSupportedOptions] *)
Definition GetSupportedOptions : list string := ["artifacts"; "cache"].

Definition isCommand (i : Instr) : bool :=
  match i with ICommand _ _ => true | _ => false end.

Definition isCd (i : Instr) : bool :=
  match i with ICd _ => true | _ => false end.

(** A command invocation is admissible for companion path [rc] when it runs
    [git], or runs [rc] and [rc] is not empty. *)
Definition admissible (rc : string) (i : Instr) : bool :=
  match i with
  | ICommand c _ =>
      String.eqb c "git" || (String.eqb c rc && negb (String.eqb rc ""))
  | _ => true
  end.

(** The number of newline bytes of [s]. *)
Fixpoint countNewlines (s : string) : nat :=
  match s with
  | EmptyString => 0
  | String c s' =>
      (if Ascii.eqb c (byte 10) then 1 else 0) + countNewlines s'
  end.

(** The build [b] with its [Options], respectively [Commands], replaced. *)
Definition setOptions (options : gmap string value) (b : Build) : Build := {|
  ID := ID b;
  Name := Name b;
  Token := Token b;
  RepoURL := RepoURL b;
  Sha := Sha b;
  RefName := RefName b;
  AllowGitFetch := AllowGitFetch b;
  Commands := Commands b;
  Options := options;
  DependsOnBuilds := DependsOnBuilds b;
  Network := Network b;
  Runner := Runner b;
  TLSCAChain := TLSCAChain b
|}.

Definition setCommands (commands : string) (b : Build) : Build := {|
  ID := ID b;
  Name := Name b;
  Token := Token b;
  RepoURL := RepoURL b;
  Sha := Sha b;
  RefName := RefName b;
  AllowGitFetch := AllowGitFetch b;
  Commands := commands;
  Options := Options b;
  DependsOnBuilds := DependsOnBuilds b;
  Network := Network b;
  Runner := Runner b;
  TLSCAChain := TLSCAChain b
|}.



Definition shortShaInfo : ShellScriptInfo :=
  mkShellScriptInfo (sampleBuildWith "1a2b3c4" false "" None)
                    "gitlab-runner".

Definition noCompanionInfo : ShellScriptInfo :=
  mkShellScriptInfo sampleBuild "".

(** * Properties *)

(** ** The string functions *)

Lemma rev_string_rev_string (s acc acc' : string) :
  rev_string (rev_string s acc) acc' =
  rev_string acc (String.append s acc').
Proof.
  revert acc. induction s as [| c s IH]; intros acc.
  - reflexivity.
  - cbn [rev_string]. rewrite IH. reflexivity.
Qed.

Lemma append_empty_r (s : string) : String.append s "" = s.
Proof.
  induction s as [| c s IH].
  - reflexivity.
  - change (String c (String.append s "") = String c s).
    rewrite IH. reflexivity.
Qed.

Lemma rev_string_involutive (s : string) :
  rev_string (rev_string s "") "" = s.
Proof. rewrite rev_string_rev_string. cbn [rev_string]. apply append_empty_r. Qed.

Lemma rev_string_acc (s acc : string) :
  rev_string s acc = String.append (rev_string s "") acc.
Proof.
  revert acc. induction s as [| c s IH]; intros acc.
  - reflexivity.
  - cbn [rev_string]. rewrite (IH (String c acc)), (IH (String c "")).
    generalize (rev_string s ""). intros r.
    induction r as [| d r IHr]; [reflexivity |].
    change (String d (String.append r (String c acc)) =
            String d (String.append (String.append r (String c "")) acc)).
    rewrite IHr. reflexivity.
Qed.

(** Trimming stops at a byte that is not ASCII white space. *)
Lemma trimLeft_head_fuel (n : nat) (s : string) :
  String.length s <= n -> headSpace (trimLeft s) = false.
Proof.
  revert s. induction n as [| n IH]; intros s Hn.
  - destruct s; [reflexivity | simpl in Hn; lia].
  - destruct s as [| c1 s1]; [reflexivity |]. cbn [trimLeft].
    destruct (asciiSpace c1) eqn:H1.
    { apply IH. simpl in Hn. lia. }
    destruct s1 as [| c2 s2]; [cbn; exact H1 |].
    destruct (space2 c1 c2).
    { apply IH. simpl in Hn. lia. }
    destruct s2 as [| c3 s3]; [cbn; exact H1 |].
    destruct (space3 c1 c2 c3); [| cbn; exact H1].
    apply IH. simpl in Hn. lia.
Qed.

Lemma trimLeftRev_head_fuel (n : nat) (s : string) :
  String.length s <= n -> headSpace (trimLeftRev s) = false.
Proof.
  revert s. induction n as [| n IH]; intros s Hn.
  - destruct s; [reflexivity | simpl in Hn; lia].
  - destruct s as [| c1 s1]; [reflexivity |]. cbn [trimLeftRev].
    destruct (asciiSpace c1) eqn:H1.
    { apply IH. simpl in Hn. lia. }
    destruct s1 as [| c2 s2]; [cbn; exact H1 |].
    destruct (space2 c2 c1).
    { apply IH. simpl in Hn. lia. }
    destruct s2 as [| c3 s3]; [cbn; exact H1 |].
    destruct (space3 c3 c2 c1); [| cbn; exact H1].
    apply IH. simpl in Hn. lia.
Qed.

(** Trimming from the end removes a suffix: what is kept is a prefix. *)
Lemma trimLeftRev_suffix_fuel (n : nat) (s : string) :
  String.length s <= n ->
  exists dropped, s = String.append dropped (trimLeftRev s).
Proof.
  revert s. induction n as [| n IH]; intros s Hn.
  - destruct s; [exists ""; reflexivity | simpl in Hn; lia].
  - destruct s as [| c1 s1]; [exists ""; reflexivity |]. cbn [trimLeftRev].
    destruct (asciiSpace c1).
    { destruct (IH s1) as [d Hd]; [simpl in Hn; lia |].
      exists (String c1 d).
      change (String c1 s1 =
              String c1 (String.append d (trimLeftRev s1))).
      f_equal. exact Hd. }
    destruct s1 as [| c2 s2]; [exists ""; reflexivity |].
    destruct (space2 c2 c1).
    { destruct (IH s2) as [d Hd]; [simpl in Hn; lia |].
      exists (String c1 (String c2 d)).
      change (String c1 (String c2 s2) =
              String c1 (String c2 (String.append d (trimLeftRev s2)))).
      do 2 f_equal. exact Hd. }
    destruct s2 as [| c3 s3]; [exists ""; reflexivity |].
    destruct (space3 c3 c2 c1); [| exists ""; reflexivity].
    destruct (IH s3) as [d Hd]; [simpl in Hn; lia |].
    exists (String c1 (String c2 (String c3 d))).
    change (String c1 (String c2 (String c3 s3)) =
            String c1 (String c2 (String c3
                         (String.append d (trimLeftRev s3))))).
    do 3 f_equal. exact Hd.
Qed.

Lemma rev_string_append (s t : string) :
  rev_string (String.append s t) "" =
  String.append (rev_string t "") (rev_string s "").
Proof.
  generalize "" at 1 3. induction s as [| c s IH]; intros acc.
  - cbn [String.append rev_string]. apply rev_string_acc.
  - change (rev_string (String.append s t) (String c acc) =
            String.append (rev_string t "") (rev_string s (String c acc))).
    apply IH.
Qed.

(** [TrimSpace] leaves no ASCII white space at either end. *)
Lemma TrimSpace_trimmed (s : string) :
  headSpace (TrimSpace s) = false /\ lastSpace (TrimSpace s) = false.
Proof.
  unfold TrimSpace, trimRight, lastSpace. split.
  - set (t := trimLeft s).
    destruct (trimLeftRev_suffix_fuel _ (rev_string t "") (le_n _))
      as [d Hd].
    apply (f_equal (fun r => rev_string r "")) in Hd.
    rewrite rev_string_involutive, rev_string_append in Hd.
    assert (Ht : headSpace t = false)
      by apply (trimLeft_head_fuel _ s (le_n _)).
    rewrite Hd in Ht.
    destruct (rev_string (trimLeftRev (rev_string t "")) "");
      [reflexivity | exact Ht].
  - rewrite rev_string_involutive.
    apply (trimLeftRev_head_fuel _ _ (le_n _)).
Qed.

Example TrimSpace_block :
  TrimSpace (String.append "  echo hi"
               (String.append newline (String.append newline "  ls  "))) =
  String.append "echo hi" (String.append newline (String.append newline "  ls")).
Proof. reflexivity. Qed.

Example TrimSpace_nbsp :
  TrimSpace (String (byte 194) (String (byte 160)
               (String.append "a b" (String (byte 9) newline)))) = "a b".
Proof. reflexivity. Qed.

Example Split_nl_pieces :
  Split_nl (String.append "a" (String.append newline (String.append newline "b")))
  = ["a"; ""; "b"] /\
  Split_nl "" = [""] /\
  Split_nl (String.append "a" newline) = ["a"; ""].
Proof. repeat split. Qed.

Example Itoa_decimal : Itoa 42 = "42" /\ Itoa 0 = "0" /\ Itoa (-7) = "-7".
Proof. repeat split. Qed.

(** ** The generation monad *)

Lemma emitted_bind {A B} (m : Gen A) (f : A -> Gen B) :
  emitted (bind m f) =
  emitted m ++ match outcome m with
               | Ok a => emitted (f a)
               | Panicked _ => []
               end.
Proof.
  destruct m as [w [a | msg]]; simpl.
  - destruct (f a); reflexivity.
  - symmetry; apply app_nil_r.
Qed.

Lemma outcome_bind {A B} (m : Gen A) (f : A -> Gen B) :
  outcome (bind m f) =
  match outcome m with
  | Ok a => outcome (f a)
  | Panicked msg => Panicked msg
  end.
Proof.
  destruct m as [w [a | msg]]; simpl; [destruct (f a) |]; reflexivity.
Qed.

Lemma Gen_eta {A} (m : Gen A) : m = (emitted m, outcome m).
Proof. destruct m; reflexivity. Qed.

(** A step that completes lets the rest of the function run. *)
Lemma seq_completes {B} (m : Gen unit) (k : Gen B) :
  outcome m = Ok tt ->
  (m ;; k) = (emitted m ++ emitted k, outcome k).
Proof.
  intros Hm. rewrite (Gen_eta (m ;; k)), emitted_bind, outcome_bind, Hm.
  reflexivity.
Qed.

Lemma forEach_completes {A} (l : list A) (body : A -> Gen unit) :
  (forall x, outcome (body x) = Ok tt) ->
  forEach l body = (flat_map (fun x => emitted (body x)) l, Ok tt).
Proof.
  intros Hbody. induction l as [| x l IH]; simpl.
  - reflexivity.
  - rewrite seq_completes by apply Hbody. rewrite IH. reflexivity.
Qed.

Lemma forEach_emit {A} (l : list A) (g : A -> Instr) :
  forEach l (fun x => emit (g x)) = (map g l, Ok tt).
Proof.
  induction l as [| x l IH]; simpl.
  - reflexivity.
  - rewrite IH. reflexivity.
Qed.

(** ** Reading instruction sequences *)

Lemma run_app (l1 l2 : list Instr) (stack : list frame) :
  run stack (l1 ++ l2) =
  match run stack l1 with
  | Some stack' => run stack' l2
  | None => None
  end.
Proof.
  revert stack. induction l1 as [| i l1 IH]; intros stack; simpl.
  - reflexivity.
  - destruct i; try apply IH.
    + destruct stack as [| [c [|]] st]; try reflexivity. apply IH.
    + destruct stack as [| fr st]; try reflexivity. apply IH.
Qed.

Lemma run_plain (l : list Instr) (stack : list frame) :
  forallb plain l = true -> run stack l = Some stack.
Proof.
  induction l as [| i l IH]; simpl; intros Hl.
  - reflexivity.
  - apply andb_prop in Hl as [Hi Hl]. destruct i; try discriminate; auto.
Qed.

Lemma fileChecks_plain (l : list Instr) (stack : list frame) :
  forallb plain l = true -> fileChecks stack l = [].
Proof.
  induction l as [| i l IH]; simpl; intros Hl.
  - reflexivity.
  - apply andb_prop in Hl as [Hi Hl]. destruct i; try discriminate; auto.
Qed.

Lemma fileChecks_app (l1 l2 : list Instr) (stack stack' : list frame) :
  run stack l1 = Some stack' ->
  fileChecks stack (l1 ++ l2) = fileChecks stack l1 ++ fileChecks stack' l2.
Proof.
  revert stack. induction l1 as [| i l1 IH]; intros stack; simpl.
  - intros [= <-]. reflexivity.
  - destruct i; try apply IH.
    + intros Hr. rewrite (IH _ Hr). reflexivity.
    + destruct stack as [| [c [|]] st]; try discriminate. apply IH.
    + destruct stack as [| fr st]; try discriminate. apply IH.
Qed.

Lemma forallb_flat_map {A} (p : Instr -> bool) (f : A -> list Instr)
    (l : list A) :
  (forall x, forallb p (f x) = true) -> forallb p (flat_map f l) = true.
Proof.
  intros Hf. induction l as [| x l IH]; simpl.
  - reflexivity.
  - rewrite forallb_app, Hf, IH. reflexivity.
Qed.

Lemma forallb_map_IVariable (p : Instr -> bool) (l : list BuildVariable) :
  (forall v, p (IVariable v) = true) -> forallb p (map IVariable l) = true.
Proof.
  intros Hp. induction l as [| x l IH]; simpl.
  - reflexivity.
  - rewrite Hp, IH. reflexivity.
Qed.

(** ** The helpers *)
Section Helpers.
Context `{Externals}.

Lemma writeExports_emits (info : ShellScriptInfo) :
  writeExports info =
  (map IVariable (GetAllVariables (info_Build info)), Ok tt).
Proof. apply forEach_emit. Qed.

Lemma writeTLSCAInfo_completes (build : Build) (key : string) :
  outcome (writeTLSCAInfo build key) = Ok tt.
Proof. unfold writeTLSCAInfo. destruct (String.eqb _ _); reflexivity. Qed.

Lemma writeTLSCAInfo_chain (build : Build) (key : string) :
  TLSCAChain build <> "" ->
  emitted (writeTLSCAInfo build key) =
  [IVariable (mkBuildVariable key (TLSCAChain build) true true true)].
Proof.
  intros Hc. unfold writeTLSCAInfo.
  destruct (String.eqb_spec (TLSCAChain build) ""); [contradiction|].
  reflexivity.
Qed.

Lemma writeTLSCAInfo_no_chain (build : Build) (key : string) :
  TLSCAChain build = "" -> emitted (writeTLSCAInfo build key) = [].
Proof. intros Hc. unfold writeTLSCAInfo. rewrite Hc. reflexivity. Qed.

Lemma writeCheckoutCmd_long (build : Build) :
  8 <= String.length (Sha build) ->
  writeCheckoutCmd build =
  ([INotice "Checking out %s as %s..."
            [VString (substring 0 8 (Sha build)); VString (RefName build)];
    ICommand "git" ["checkout"; Sha build]], Ok tt).
Proof.
  intros Hlen. unfold writeCheckoutCmd, slice.
  replace (8 <=? String.length (Sha build))%nat with true
    by (symmetry; apply Nat.leb_le; exact Hlen).
  reflexivity.
Qed.

Lemma writeCheckoutCmd_short (build : Build) :
  String.length (Sha build) < 8 ->
  writeCheckoutCmd build = ([], Panicked "slice bounds out of range").
Proof.
  intros Hlen. unfold writeCheckoutCmd, slice.
  replace (8 <=? String.length (Sha build))%nat with false
    by (symmetry; apply Nat.leb_gt; exact Hlen).
  reflexivity.
Qed.

Lemma extractFiles_completes (rc ty p : string) :
  outcome (extractFiles rc ty p) = Ok tt.
Proof. unfold extractFiles. destruct (String.eqb rc ""); reflexivity. Qed.

Lemma extractFiles_available (rc ty p : string) :
  rc <> "" ->
  emitted (extractFiles rc ty p) =
  [INotice "Restoring %s..." [VString ty];
   ICommand rc ["extract"; "--file"; p]].
Proof.
  intros Hrc. unfold extractFiles.
  destruct (String.eqb_spec rc ""); [contradiction | reflexivity].
Qed.

Lemma extractFiles_plain (rc ty p : string) :
  forallb plain (emitted (extractFiles rc ty p)) = true.
Proof. unfold extractFiles. destruct (String.eqb rc ""); reflexivity. Qed.

Lemma downloadArtifacts_completes runner (d : BuildInfo) (rc p : string) :
  outcome (downloadArtifacts runner d rc p) = Ok tt.
Proof. unfold downloadArtifacts. destruct (String.eqb rc ""); reflexivity. Qed.

Lemma uploadArtifacts_completes (build : Build) (rc p : string) :
  outcome (uploadArtifacts build rc p) = Ok tt.
Proof. unfold uploadArtifacts. destruct (String.eqb rc ""); reflexivity. Qed.

Lemma uploadArtifacts_plain (build : Build) (rc p : string) :
  forallb plain (emitted (uploadArtifacts build rc p)) = true.
Proof. unfold uploadArtifacts. destruct (String.eqb rc ""); reflexivity. Qed.

Lemma archiveFiles_completes (list : value) (rc ty p : string) :
  outcome (archiveFiles list rc ty p) = Ok tt.
Proof.
  unfold archiveFiles. destruct (ToConfigMap list); [| reflexivity].
  destruct (String.eqb rc ""); [reflexivity |].
  destruct (_ <=? 3)%nat; reflexivity.
Qed.

Lemma archiveFiles_plain (list : value) (rc ty p : string) :
  forallb plain (emitted (archiveFiles list rc ty p)) = true.
Proof.
  unfold archiveFiles. destruct (ToConfigMap list); [| reflexivity].
  destruct (String.eqb rc ""); [reflexivity |].
  destruct (_ <=? 3)%nat; reflexivity.
Qed.

End Helpers.

(** ** Pre-build generation, block by block *)
Section PreBuild.
Context `{Externals}.

(** The repository-synchronisation block of [GeneratePreBuild]. *)
Lemma sync_completes (build : Build) (projectDir gitDir : string) :
  outcome (if AllowGitFetch build
           then writeFetchCmd build projectDir gitDir
           else writeCloneCmd build projectDir) = Ok tt.
Proof. destruct (AllowGitFetch build); reflexivity. Qed.

Lemma restoreCache_emits (info : ShellScriptInfo) :
  let a := CacheFile (info_Build info) in
  let b := CacheFileForRef (info_Build info) "master" in
  let extract p := emitted (extractFiles (RunnerCommand info) "cache" p) in
  restoreCache info =
  (if String.eqb a "" then
     if String.eqb b "" then []
     else [IIfFile b] ++ extract b ++ [IEndIf]
   else
     if String.eqb b "" then [IIfFile a] ++ extract a ++ [IEndIf]
     else [IIfFile a] ++ extract a ++
          [IElse; IIfFile b] ++ extract b ++ [IEndIf; IEndIf],
   Ok tt).
Proof.
  intros a b extract. unfold restoreCache. fold a b.
  destruct (String.eqb a "") eqn:Ha; destruct (String.eqb b "") eqn:Hb;
    rewrite ?Ha, ?Hb; cbv [negb];
    try reflexivity;
    rewrite !seq_completes
      by (reflexivity || apply extractFiles_completes
          || (rewrite !outcome_bind, extractFiles_completes; reflexivity));
    try reflexivity.
  unfold extract. cbn [emitted emit fst app].
  rewrite <- !app_assoc. reflexivity.
Qed.

Lemma restoreCache_completes (info : ShellScriptInfo) :
  outcome (restoreCache info) = Ok tt.
Proof. rewrite restoreCache_emits. reflexivity. Qed.

Lemma processArtifact_completes (info : ShellScriptInfo) (d : BuildInfo) :
  outcome (processArtifact info d) = Ok tt.
Proof.
  unfold processArtifact. destruct (Artifacts d) as [a |]; [| reflexivity].
  destruct (String.eqb (Filename a) ""); [reflexivity |].
  rewrite !outcome_bind, downloadArtifacts_completes, extractFiles_completes.
  reflexivity.
Qed.

Lemma processArtifact_emits (info : ShellScriptInfo) (d : BuildInfo) :
  emitted (processArtifact info d) =
  match artifactFile d with
  | Some file =>
      emitted (downloadArtifacts (Runner (info_Build info)) d
                                 (RunnerCommand info) file) ++
      emitted (extractFiles (RunnerCommand info) (dep_Name d) file) ++
      [IRmFile file]
  | None => []
  end.
Proof.
  unfold processArtifact, artifactFile.
  destruct (Artifacts d) as [a |]; [| reflexivity].
  destruct (String.eqb (Filename a) ""); [reflexivity |].
  rewrite !seq_completes
    by (apply downloadArtifacts_completes || apply extractFiles_completes).
  reflexivity.
Qed.

Lemma GeneratePreBuild_long (info : ShellScriptInfo) :
  let build := info_Build info in
  8 <= String.length (Sha build) ->
  GeneratePreBuild info =
  (map IVariable (GetAllVariables build) ++
   emitted (writeTLSCAInfo build "GIT_SSL_CAINFO") ++
   emitted (writeTLSCAInfo build "CI_SERVER_TLS_CA_FILE") ++
   emitted (if AllowGitFetch build
            then writeFetchCmd build (FullProjectDir build)
                               (path_Join [FullProjectDir build; ".git"])
            else writeCloneCmd build (FullProjectDir build)) ++
   [INotice "Checking out %s as %s..."
            [VString (substring 0 8 (Sha build)); VString (RefName build)];
    ICommand "git" ["checkout"; Sha build]] ++
   emitted (restoreCache info) ++
   flat_map (fun d => emitted (processArtifact info d))
            (DependsOnBuilds build),
   Ok tt).
Proof.
  intros build Hlen. unfold GeneratePreBuild. fold build.
  rewrite writeExports_emits, (writeCheckoutCmd_long _ Hlen).
  rewrite (forEach_completes _ _ (processArtifact_completes info)).
  rewrite !seq_completes
    by (reflexivity || apply writeTLSCAInfo_completes
        || apply sync_completes || apply restoreCache_completes).
  reflexivity.
Qed.

Lemma GeneratePreBuild_short (info : ShellScriptInfo) :
  let build := info_Build info in
  String.length (Sha build) < 8 ->
  GeneratePreBuild info =
  (map IVariable (GetAllVariables build) ++
   emitted (writeTLSCAInfo build "GIT_SSL_CAINFO") ++
   emitted (writeTLSCAInfo build "CI_SERVER_TLS_CA_FILE") ++
   emitted (if AllowGitFetch build
            then writeFetchCmd build (FullProjectDir build)
                               (path_Join [FullProjectDir build; ".git"])
            else writeCloneCmd build (FullProjectDir build)),
   Panicked "slice bounds out of range").
Proof.
  intros build Hlen. unfold GeneratePreBuild. fold build.
  rewrite writeExports_emits, (writeCheckoutCmd_short _ Hlen).
  rewrite !seq_completes
    by (reflexivity || apply writeTLSCAInfo_completes
        || apply sync_completes).
  rewrite emitted_bind, outcome_bind. cbn [emitted outcome fst snd].
  rewrite !app_nil_r. reflexivity.
Qed.

End PreBuild.

(** ** Shapes of the blocks

    Facts of the form "every instruction of this block satisfies [p]" are
    proved by running the block on each combination of its tests. *)

Lemma filter_none (p : Instr -> bool) (l : list Instr) :
  forallb (fun i => negb (p i)) l = true -> List.filter p l = [].
Proof.
  induction l as [| i l IH]; simpl; intros Hl.
  - reflexivity.
  - apply andb_prop in Hl as [Hi Hl]. apply negb_true_iff in Hi.
    rewrite Hi. auto.
Qed.

Lemma filter_isVariable_exports (l : list BuildVariable) :
  List.filter isVariable (map IVariable l) = map IVariable l.
Proof. induction l as [| v l IH]; simpl; congruence. Qed.

Section Shapes.
Context `{Externals}.
Variable p : Instr -> bool.
Hypothesis p_Notice : forall fmt args, p (INotice fmt args) = true.
Hypothesis p_Warning : forall fmt args, p (IWarning fmt args) = true.

(** The blocks below emit, besides notices and warnings, only instructions
    of the listed forms; [p] is assumed of those the block can emit. *)

Lemma sync_all (build : Build) (projectDir gitDir : string) :
  (forall args, p (ICommand "git" args) = true) ->
  (forall d, p (ICd d) = true) ->
  (forall d, p (IRmDir d) = true) ->
  p (IIfDirectory gitDir) = true -> p IElse = true -> p IEndIf = true ->
  forallb p (emitted (if AllowGitFetch build
                      then writeFetchCmd build projectDir gitDir
                      else writeCloneCmd build projectDir)) = true.
Proof.
  intros Hgit Hcd Hrm Hif Helse Hend.
  destruct (AllowGitFetch build); cbn;
    rewrite ?p_Notice, ?Hgit, ?Hcd, ?Hrm, ?Hif, ?Helse, ?Hend; reflexivity.
Qed.

Lemma extractFiles_all (rc ty f : string) :
  p (ICommand rc ["extract"; "--file"; f]) = true ->
  forallb p (emitted (extractFiles rc ty f)) = true.
Proof.
  intros Hc. unfold extractFiles. destruct (String.eqb rc ""); cbn;
    rewrite ?p_Notice, ?p_Warning, ?Hc; reflexivity.
Qed.

Lemma restoreCache_all (info : ShellScriptInfo) :
  (forall f, p (ICommand (RunnerCommand info) ["extract"; "--file"; f])
             = true) ->
  (forall f, p (IIfFile f) = true) -> p IElse = true -> p IEndIf = true ->
  forallb p (emitted (restoreCache info)) = true.
Proof.
  intros Hc Hif Helse Hend. rewrite restoreCache_emits.
  cbv zeta. cbn [emitted fst].
  repeat match goal with
         | |- context [if ?b then _ else _] => destruct b
         end;
    rewrite ?forallb_app; cbn [forallb];
    rewrite ?extractFiles_all, ?Hif, ?Helse, ?Hend by apply Hc;
    reflexivity.
Qed.

Lemma processArtifacts_all (info : ShellScriptInfo) (deps : list BuildInfo) :
  (forall args, p (ICommand (RunnerCommand info) args) = true) ->
  (forall f, p (IRmFile f) = true) ->
  forallb p (flat_map (fun d => emitted (processArtifact info d)) deps)
  = true.
Proof.
  intros Hc Hrm. apply forallb_flat_map. intros d.
  rewrite processArtifact_emits. destruct (artifactFile d); [| reflexivity].
  rewrite !forallb_app, extractFiles_all by apply Hc.
  unfold downloadArtifacts. destruct (String.eqb _ ""); cbn;
    rewrite ?p_Notice, ?p_Warning, ?Hc, ?Hrm; reflexivity.
Qed.

Lemma archiveFiles_all (list : value) (rc ty f : string) :
  (forall args, p (ICommand rc args) = true) ->
  forallb p (emitted (archiveFiles list rc ty f)) = true.
Proof.
  intros Hc. unfold archiveFiles. destruct (ToConfigMap list); [| reflexivity].
  destruct (String.eqb rc ""); [cbn; rewrite p_Warning; reflexivity |].
  destruct (_ <=? 3)%nat; cbn; rewrite ?p_Notice, ?Hc; reflexivity.
Qed.

Lemma uploadArtifacts_all (build : Build) (rc f : string) :
  (forall args, p (ICommand rc args) = true) ->
  forallb p (emitted (uploadArtifacts build rc f)) = true.
Proof.
  intros Hc. unfold uploadArtifacts.
  destruct (String.eqb rc ""); cbn;
    rewrite ?p_Notice, ?p_Warning, ?Hc; reflexivity.
Qed.

End Shapes.

(** * The specification, claim by claim *)

(** ** Degraded helpers *)

(** C8: called with an empty companion-executable path, the extract,
    download and upload helpers each emit exactly one warning, no command,
    and complete normally. *)
Theorem helpers_warn_without_companion
    (runner : RunnerConfig) (dep : BuildInfo) (build : Build)
    (archiveType archivePath : string) :
  extractFiles "" archiveType archivePath =
    ([IWarning "The %s is not supported in this executor."
               [VString archiveType]], Ok tt) /\
  downloadArtifacts runner dep "" archivePath =
    ([IWarning "The artifacts downloading is not supported in this executor."
               []], Ok tt) /\
  uploadArtifacts build "" archivePath =
    ([IWarning "The artifacts uploading is not supported in this executor."
               []], Ok tt).
Proof. repeat split. Qed.

(** ** The checkout step and the length of [Sha] *)

(** C9: [GeneratePreBuild] completes exactly when [Sha] has at least 8
    bytes; on a shorter [Sha] (the empty string included) the slice
    [Sha[0:8]] of the checkout notice is out of range and the run panics,
    without having emitted the checkout. *)
Theorem GeneratePreBuild_needs_long_Sha `{Externals}
    (info : ShellScriptInfo) :
  (String.length (Sha (info_Build info)) < 8 ->
   outcome (GeneratePreBuild info) = Panicked "slice bounds out of range" /\
   ~ In (ICommand "git" ["checkout"; Sha (info_Build info)])
        (emitted (GeneratePreBuild info))) /\
  (8 <= String.length (Sha (info_Build info)) ->
   outcome (GeneratePreBuild info) = Ok tt).
Proof.
  split; intros Hlen.
  - rewrite (GeneratePreBuild_short info Hlen). split; [reflexivity |].
    cbn [emitted fst]. rewrite !in_app_iff, in_map_iff.
    intros [(v & Hv & _) | [Hin | [Hin | Hin]]]; try discriminate.
    + unfold writeTLSCAInfo in Hin. destruct (String.eqb _ _); cbn in Hin;
        intuition discriminate.
    + unfold writeTLSCAInfo in Hin. destruct (String.eqb _ _); cbn in Hin;
        intuition discriminate.
    + destruct (AllowGitFetch _); cbn in Hin; intuition discriminate.
  - rewrite (GeneratePreBuild_long info Hlen). reflexivity.
Qed.

Lemma GeneratePreBuild_needs_long_Sha_witness :
  (outcome (@GeneratePreBuild sampleEnv
              (mkShellScriptInfo
                 (sampleBuildWith "1a2b3c4" true "" None) "gitlab-runner"))
   = Panicked "slice bounds out of range") /\
  (outcome (@GeneratePreBuild sampleEnv
              (mkShellScriptInfo (sampleBuildWith "" false "" None) ""))
   = Panicked "slice bounds out of range") /\
  outcome (@GeneratePreBuild sampleEnv sampleInfo) = Ok tt.
Proof.
  split; [| split].
  - apply (@GeneratePreBuild_needs_long_Sha sampleEnv
             (mkShellScriptInfo
                (sampleBuildWith "1a2b3c4" true "" None) "gitlab-runner")).
    simpl. lia.
  - apply (@GeneratePreBuild_needs_long_Sha sampleEnv
             (mkShellScriptInfo (sampleBuildWith "" false "" None) "")).
    simpl. lia.
  - apply (@GeneratePreBuild_needs_long_Sha sampleEnv sampleInfo).
    simpl. lia.
Defined.

(** ** Trust-anchor export *)

Lemma no_Variable_after_TLS `{Externals} (info : ShellScriptInfo) :
  let build := info_Build info in
  List.filter isVariable
    (emitted (if AllowGitFetch build
              then writeFetchCmd build (FullProjectDir build)
                                 (path_Join [FullProjectDir build; ".git"])
              else writeCloneCmd build (FullProjectDir build))) = [] /\
  List.filter isVariable (emitted (restoreCache info)) = [] /\
  List.filter isVariable
    (flat_map (fun d => emitted (processArtifact info d))
              (DependsOnBuilds build)) = [].
Proof.
  intros build. repeat split; apply filter_none.
  - apply sync_all; reflexivity.
  - apply restoreCache_all; reflexivity.
  - apply processArtifacts_all; reflexivity.
Qed.

(** C4: the variables [GeneratePreBuild] exports are the declared build
    variables followed, when [TLSCAChain] is non-empty, by exactly two more:
    [GIT_SSL_CAINFO] and [CI_SERVER_TLS_CA_FILE], both holding the chain with
    [Public], [Internal] and [File] set; with an empty chain nothing is added
    to the declared variables. *)
Theorem GeneratePreBuild_TLS_variables `{Externals}
    (info : ShellScriptInfo) :
  let build := info_Build info in
  let tls key := IVariable {| Key := key;
                              Value := TLSCAChain build;
                              Public := true;
                              Internal := true;
                              File := true |} in
  (TLSCAChain build <> "" ->
   List.filter isVariable (emitted (GeneratePreBuild info)) =
   map IVariable (GetAllVariables build) ++
   [tls "GIT_SSL_CAINFO"; tls "CI_SERVER_TLS_CA_FILE"]) /\
  (TLSCAChain build = "" ->
   List.filter isVariable (emitted (GeneratePreBuild info)) =
   map IVariable (GetAllVariables build)).
Proof.
  intros build tls.
  destruct (no_Variable_after_TLS info) as (Hsync & Hcache & Hdeps).
  fold build in Hsync, Hdeps.
  assert (Hvars : forall tlsA tlsB,
    emitted (writeTLSCAInfo build "GIT_SSL_CAINFO") = tlsA ->
    emitted (writeTLSCAInfo build "CI_SERVER_TLS_CA_FILE") = tlsB ->
    List.filter isVariable (emitted (GeneratePreBuild info)) =
    map IVariable (GetAllVariables build) ++
    List.filter isVariable tlsA ++ List.filter isVariable tlsB).
  { intros tlsA tlsB HA HB.
    destruct (le_lt_dec 8 (String.length (Sha build))) as [Hlen | Hlen].
    - rewrite (GeneratePreBuild_long info Hlen). fold build.
      cbn [emitted fst].
      rewrite !List.filter_app, filter_isVariable_exports.
      rewrite Hsync, Hcache, Hdeps, HA, HB. cbn [List.filter isVariable].
      rewrite !app_nil_r. reflexivity.
    - rewrite (GeneratePreBuild_short info Hlen). fold build.
      cbn [emitted fst].
      rewrite !List.filter_app, filter_isVariable_exports.
      rewrite Hsync, HA, HB. rewrite !app_nil_r. reflexivity. }
  split; intros Hchain.
  - rewrite (Hvars _ _ (writeTLSCAInfo_chain build _ Hchain)
                       (writeTLSCAInfo_chain build _ Hchain)).
    reflexivity.
  - rewrite (Hvars _ _ (writeTLSCAInfo_no_chain build _ Hchain)
                       (writeTLSCAInfo_no_chain build _ Hchain)).
    cbn. rewrite app_nil_r. reflexivity.
Qed.

Lemma GeneratePreBuild_TLS_variables_witness :
  List.filter isVariable (emitted (@GeneratePreBuild sampleEnv sampleInfo)) =
  [IVariable (mkBuildVariable "CI_BUILD_REF" sampleSha true true false);
   IVariable (mkBuildVariable "GIT_SSL_CAINFO"
                "-----BEGIN CERTIFICATE-----" true true true);
   IVariable (mkBuildVariable "CI_SERVER_TLS_CA_FILE"
                "-----BEGIN CERTIFICATE-----" true true true)] /\
  List.filter isVariable
    (emitted (@GeneratePreBuild sampleEnv
                (mkShellScriptInfo
                   (sampleBuildWith sampleSha false "" None)
                   "gitlab-runner"))) =
  [IVariable (mkBuildVariable "CI_BUILD_REF" sampleSha true true false)].
Proof.
  split.
  - apply (@GeneratePreBuild_TLS_variables sampleEnv sampleInfo).
    simpl. discriminate.
  - apply (@GeneratePreBuild_TLS_variables sampleEnv
             (mkShellScriptInfo (sampleBuildWith sampleSha false "" None)
                                "gitlab-runner")).
    reflexivity.
Defined.

(** ** Repository synchronisation *)

(** C3, counterexample: on a [Sha] of 7 bytes, with [AllowGitFetch] unset,
    the run ends in a panic right after the clone sequence; no checkout
    follows the segment. *)
Lemma GeneratePreBuild_repository_sync_counterexample :
  AllowGitFetch (info_Build shortShaInfo) = false /\
  @GeneratePreBuild sampleEnv shortShaInfo =
    ([IVariable (mkBuildVariable "CI_BUILD_REF" "1a2b3c4" true true false);
      INotice "Cloning repository..." [];
      IRmDir "/builds/group/project";
      ICommand "git" ["clone";
                      "https://gitlab.example.com/group/project.git";
                      "/builds/group/project"];
      ICd "/builds/group/project"],
     Panicked "slice bounds out of range") /\
  ~ In (ICommand "git" ["checkout"; Sha (info_Build shortShaInfo)])
       (emitted (@GeneratePreBuild sampleEnv shortShaInfo)).
Proof.
  split; [reflexivity | split; [reflexivity |]].
  cbn. intuition discriminate.
Qed.

(** C3, amended: for every build, the calls of [GeneratePreBuild] are
    variable exports followed by the repository-sync segment.  With
    [AllowGitFetch] unset the segment is the clone sequence and the whole
    output has no directory conditional; with it set the segment is the one
    conditional on the [.git] directory, with the fetch path as then-branch
    and the same clone sequence as else-branch.  When [Sha] has at least 8
    bytes the segment is followed by the notice and the unconditional
    [git checkout <Sha>]; on a shorter [Sha] nothing follows the segment and
    the run ends in a panic. *)
Theorem GeneratePreBuild_repository_sync `{Externals}
    (info : ShellScriptInfo) :
  let build := info_Build info in
  let dir := FullProjectDir build in
  let clone := [INotice "Cloning repository..." [];
                IRmDir dir;
                ICommand "git" ["clone"; RepoURL build; dir];
                ICd dir] in
  let fetch := [INotice "Fetching changes..." [];
                ICd dir;
                ICommand "git" ["clean"; "-ffdx"];
                ICommand "git" ["reset"; "--hard"];
                ICommand "git" ["remote"; "set-url"; "origin"; RepoURL build];
                ICommand "git" ["fetch"; "origin"]] in
  let checkout := [INotice "Checking out %s as %s..."
                           [VString (substring 0 8 (Sha build));
                            VString (RefName build)];
                   ICommand "git" ["checkout"; Sha build]] in
  exists exports rest,
    forallb isVariable exports = true /\
    emitted (GeneratePreBuild info) =
      exports ++
      (if AllowGitFetch build
       then [IIfDirectory (path_Join [dir; ".git"])] ++ fetch ++
            [IElse] ++ clone ++ [IEndIf]
       else clone) ++
      rest /\
    List.filter isIfDirectory (emitted (GeneratePreBuild info)) =
      (if AllowGitFetch build
       then [IIfDirectory (path_Join [dir; ".git"])]
       else []) /\
    (8 <= String.length (Sha build) ->
     exists rest', rest = checkout ++ rest') /\
    (String.length (Sha build) < 8 ->
     rest = [] /\
     outcome (GeneratePreBuild info) =
       Panicked "slice bounds out of range").
Proof.
  intros build dir clone fetch checkout.
  assert (Htls : forall key,
             forallb isVariable (emitted (writeTLSCAInfo build key)) = true).
  { intros key. unfold writeTLSCAInfo.
    destruct (String.eqb _ _); reflexivity. }
  assert (HtlsD : forall key,
             List.filter isIfDirectory (emitted (writeTLSCAInfo build key))
             = []).
  { intros key. unfold writeTLSCAInfo.
    destruct (String.eqb _ _); reflexivity. }
  assert (Hexp : List.filter isIfDirectory
                   (map IVariable (GetAllVariables build)) = []).
  { apply filter_none, forallb_map_IVariable. reflexivity. }
  assert (Hcache : List.filter isIfDirectory (emitted (restoreCache info))
                   = []).
  { apply filter_none, restoreCache_all; reflexivity. }
  assert (Hdeps : List.filter isIfDirectory
                    (flat_map (fun d => emitted (processArtifact info d))
                              (DependsOnBuilds build)) = []).
  { apply filter_none, processArtifacts_all; reflexivity. }
  exists (map IVariable (GetAllVariables build) ++
          emitted (writeTLSCAInfo build "GIT_SSL_CAINFO") ++
          emitted (writeTLSCAInfo build "CI_SERVER_TLS_CA_FILE")).
  destruct (le_lt_dec 8 (String.length (Sha build))) as [Hlen | Hlen].
  - exists (checkout ++
            emitted (restoreCache info) ++
            flat_map (fun d => emitted (processArtifact info d))
                     (DependsOnBuilds build)).
    rewrite (GeneratePreBuild_long info Hlen). fold build dir.
    cbn [emitted fst]. split; [| split; [| split; [| split]]].
    + rewrite !forallb_app, !Htls, forallb_map_IVariable; reflexivity.
    + rewrite <- !app_assoc. destruct (AllowGitFetch build); reflexivity.
    + rewrite !List.filter_app, Hexp, !HtlsD, Hcache, Hdeps.
      destruct (AllowGitFetch build); reflexivity.
    + intros _. eexists. reflexivity.
    + intros Hshort. lia.
  - exists [].
    rewrite (GeneratePreBuild_short info Hlen). fold build dir.
    cbn [emitted fst outcome snd]. split; [| split; [| split; [| split]]].
    + rewrite !forallb_app, !Htls, forallb_map_IVariable; reflexivity.
    + rewrite <- !app_assoc, ?app_nil_r.
      destruct (AllowGitFetch build); reflexivity.
    + rewrite !List.filter_app, Hexp, !HtlsD.
      destruct (AllowGitFetch build); reflexivity.
    + intros Hlong. lia.
    + intros _. split; reflexivity.
Qed.

Lemma GeneratePreBuild_repository_sync_witness :
  exists exports rest,
    forallb isVariable exports = true /\
    emitted (@GeneratePreBuild sampleEnv
               (mkShellScriptInfo
                  (sampleBuildWith sampleSha false "" None)
                  "gitlab-runner")) =
      exports ++
      [INotice "Cloning repository..." [];
       IRmDir "/builds/group/project";
       ICommand "git" ["clone";
                       "https://gitlab.example.com/group/project.git";
                       "/builds/group/project"];
       ICd "/builds/group/project"] ++
      rest /\
    List.filter isIfDirectory
      (emitted (@GeneratePreBuild sampleEnv
                  (mkShellScriptInfo
                     (sampleBuildWith sampleSha false "" None)
                     "gitlab-runner"))) = [] /\
    (8 <= String.length sampleSha ->
     exists rest',
       rest = [INotice "Checking out %s as %s..."
                       [VString "1a2b3c4d"; VString "feature"];
               ICommand "git" ["checkout"; sampleSha]] ++ rest') /\
    (String.length sampleSha < 8 ->
     rest = [] /\
     outcome (@GeneratePreBuild sampleEnv
                (mkShellScriptInfo
                   (sampleBuildWith sampleSha false "" None)
                   "gitlab-runner")) =
       Panicked "slice bounds out of range").
Proof.
  exact (@GeneratePreBuild_repository_sync sampleEnv
           (mkShellScriptInfo (sampleBuildWith sampleSha false "" None)
                              "gitlab-runner")).
Defined.

(** ** Cache restoration *)

Lemma fileChecks_skip (l l2 : list Instr) (stack : list frame) :
  forallb plain l = true ->
  fileChecks stack (l ++ l2) = fileChecks stack l2.
Proof.
  intros Hl. rewrite (fileChecks_app l l2 stack stack (run_plain l stack Hl)).
  rewrite (fileChecks_plain l stack Hl). reflexivity.
Qed.

Lemma run_skip (l l2 : list Instr) (stack : list frame) :
  forallb plain l = true -> run stack (l ++ l2) = run stack l2.
Proof. intros Hl. rewrite run_app, (run_plain l stack Hl). reflexivity. Qed.

Lemma writeTLSCAInfo_plain (build : Build) (key : string) :
  forallb plain (emitted (writeTLSCAInfo build key)) = true.
Proof. unfold writeTLSCAInfo. destruct (String.eqb _ _); reflexivity. Qed.

Lemma exports_plain (l : list BuildVariable) :
  forallb plain (map IVariable l) = true.
Proof. apply forallb_map_IVariable. reflexivity. Qed.

Lemma processArtifacts_plain `{Externals} (info : ShellScriptInfo)
    (deps : list BuildInfo) :
  forallb plain (flat_map (fun d => emitted (processArtifact info d)) deps)
  = true.
Proof. apply processArtifacts_all; reflexivity. Qed.

(** The calls of [GeneratePreBuild] up to and including the checkout. *)
Lemma fileChecks_before_cache `{Externals} (info : ShellScriptInfo)
    (l2 : list Instr) :
  let build := info_Build info in
  let before :=
    map IVariable (GetAllVariables build) ++
    emitted (writeTLSCAInfo build "GIT_SSL_CAINFO") ++
    emitted (writeTLSCAInfo build "CI_SERVER_TLS_CA_FILE") ++
    emitted (if AllowGitFetch build
             then writeFetchCmd build (FullProjectDir build)
                                (path_Join [FullProjectDir build; ".git"])
             else writeCloneCmd build (FullProjectDir build)) ++
    [INotice "Checking out %s as %s..."
             [VString (substring 0 8 (Sha build)); VString (RefName build)];
     ICommand "git" ["checkout"; Sha build]] in
  fileChecks [] (before ++ l2) = fileChecks [] l2 /\
  run [] (before ++ l2) = run [] l2.
Proof.
  intros build before. unfold before. rewrite <- !app_assoc.
  rewrite !fileChecks_skip, !run_skip
    by (apply exports_plain || apply writeTLSCAInfo_plain).
  destruct (AllowGitFetch build); split; reflexivity.
Qed.


Lemma sampleSha_long : 8 <= String.length (Sha (info_Build sampleInfo)).
Proof. simpl. lia. Defined.

Lemma extractFiles_emits (rc ty p : string) :
  emitted (extractFiles rc ty p) =
  if String.eqb rc ""
  then [IWarning "The %s is not supported in this executor." [VString ty]]
  else [INotice "Restoring %s..." [VString ty];
        ICommand rc ["extract"; "--file"; p]].
Proof. unfold extractFiles. destruct (String.eqb rc ""); reflexivity. Qed.




(** ** Dependency artifacts *)

(** The dependency block within the output of [GeneratePreBuild], with each
    group given as the calls of the download and extract helpers. *)
Lemma dependency_artifacts_by_helper `{Externals}
    (info : ShellScriptInfo) :
  let build := info_Build info in
  let rc := RunnerCommand info in
  let group (d : BuildInfo) :=
    match artifactFile d with
    | Some file =>
        emitted (downloadArtifacts (Runner build) d rc file) ++
        emitted (extractFiles rc (dep_Name d) file) ++
        [IRmFile file]
    | None => []
    end in
  8 <= String.length (Sha build) ->
  (exists before,
     emitted (GeneratePreBuild info) =
       before ++ flat_map group (DependsOnBuilds build) /\
     List.filter isRmFile before = [] /\
     List.filter isArtifactsCommand before = []) /\
  (forall d file,
     artifactFile d = Some file -> rc <> "" ->
     group d =
       [INotice "Downloading artifacts for %s (%d)..."
                [VString (dep_Name d); VInt (dep_ID d)];
        ICommand rc ["artifacts"; "--download";
                     "--url"; URL (Runner build);
                     "--token"; dep_Token d;
                     "--id"; Itoa (dep_ID d);
                     "--file"; file];
        INotice "Restoring %s..." [VString (dep_Name d)];
        ICommand rc ["extract"; "--file"; file];
        IRmFile file]) /\
  (forall d, Artifacts d = None \/ Artifacts d = Some (mkBuildArtifacts "") ->
             group d = []).
Proof.
  intros build rc group Hlen. split; [| split].
  - exists (map IVariable (GetAllVariables build) ++
            emitted (writeTLSCAInfo build "GIT_SSL_CAINFO") ++
            emitted (writeTLSCAInfo build "CI_SERVER_TLS_CA_FILE") ++
            emitted (if AllowGitFetch build
                     then writeFetchCmd build (FullProjectDir build)
                            (path_Join [FullProjectDir build; ".git"])
                     else writeCloneCmd build (FullProjectDir build)) ++
            [INotice "Checking out %s as %s..."
                     [VString (substring 0 8 (Sha build));
                      VString (RefName build)];
             ICommand "git" ["checkout"; Sha build]] ++
            emitted (restoreCache info)).
    split; [| split].
    + rewrite (GeneratePreBuild_long info Hlen). fold build.
      cbn [emitted fst]. rewrite <- !app_assoc.
      do 6 f_equal. clear. induction (DependsOnBuilds build) as [| d l IH].
      * reflexivity.
      * cbn [flat_map]. rewrite IH, processArtifact_emits. reflexivity.
    + apply filter_none. rewrite !forallb_app.
      rewrite forallb_map_IVariable by reflexivity.
      rewrite sync_all, restoreCache_all by reflexivity.
      unfold writeTLSCAInfo. destruct (String.eqb _ _); reflexivity.
    + apply filter_none. rewrite !forallb_app.
      rewrite forallb_map_IVariable by reflexivity.
      rewrite restoreCache_all by reflexivity.
      unfold writeTLSCAInfo.
      destruct (String.eqb _ _); destruct (AllowGitFetch build); reflexivity.
  - intros d file Hfile Hrc. unfold group. rewrite Hfile.
    rewrite (extractFiles_available _ _ _ Hrc).
    unfold downloadArtifacts.
    destruct (String.eqb_spec rc ""); [contradiction | reflexivity].
  - intros d [Hd | Hd]; unfold group, artifactFile; rewrite Hd; reflexivity.
Qed.

(** C6, counterexample: of the three sample dependencies two have an
    artifact file.  On a [Sha] of 7 bytes nothing is emitted for them; and
    without a companion executable their files are removed but no download
    is emitted. *)
Lemma GeneratePreBuild_dependency_artifacts_counterexample :
  map artifactFile (DependsOnBuilds (info_Build shortShaInfo)) =
    [Some "compile.zip"; None; Some "docs.zip"] /\
  List.filter isRmFile (emitted (@GeneratePreBuild sampleEnv shortShaInfo))
    = [] /\
  List.filter isArtifactsCommand
    (emitted (@GeneratePreBuild sampleEnv shortShaInfo)) = [] /\
  List.filter isRmFile (emitted (@GeneratePreBuild sampleEnv noCompanionInfo))
    = [IRmFile "compile.zip"; IRmFile "docs.zip"] /\
  List.filter isArtifactsCommand
    (emitted (@GeneratePreBuild sampleEnv noCompanionInfo)) = [].
Proof. repeat split. Qed.

(** C6, amended: on a build whose [Sha] has at least 8 bytes, the output of
    [GeneratePreBuild] ends with one group of calls per dependency that has
    a non-empty artifact filename, in list order; nothing before the groups
    removes a file or invokes the [artifacts] sub-command, and a dependency
    with no artifact record or an empty filename contributes no call and no
    warning.  With a companion executable a group is the download (carrying
    the runner's URL and the dependency's own token and ID), the extraction
    and the removal of the archive; without one it is two warnings followed
    by the removal. *)
Theorem GeneratePreBuild_dependency_artifacts `{Externals}
    (info : ShellScriptInfo) :
  let build := info_Build info in
  let rc := RunnerCommand info in
  let group (d : BuildInfo) :=
    match artifactFile d with
    | Some file =>
        if String.eqb rc "" then
          [IWarning
             "The artifacts downloading is not supported in this executor."
             [];
           IWarning "The %s is not supported in this executor."
                    [VString (dep_Name d)];
           IRmFile file]
        else
          [INotice "Downloading artifacts for %s (%d)..."
                   [VString (dep_Name d); VInt (dep_ID d)];
           ICommand rc ["artifacts"; "--download";
                        "--url"; URL (Runner build);
                        "--token"; dep_Token d;
                        "--id"; Itoa (dep_ID d);
                        "--file"; file];
           INotice "Restoring %s..." [VString (dep_Name d)];
           ICommand rc ["extract"; "--file"; file];
           IRmFile file]
    | None => []
    end in
  8 <= String.length (Sha build) ->
  (exists before,
     emitted (GeneratePreBuild info) =
       before ++ flat_map group (DependsOnBuilds build) /\
     List.filter isRmFile before = [] /\
     List.filter isArtifactsCommand before = []) /\
  (forall d, Artifacts d = None \/ Artifacts d = Some (mkBuildArtifacts "") ->
             group d = []).
Proof.
  intros build rc group Hlen. split.
  - destruct (dependency_artifacts_by_helper info Hlen)
      as [(before & Hemit & Hrm & Hart) _].
    exists before. split; [| split; assumption].
    rewrite Hemit. fold build rc. f_equal.
    apply flat_map_ext. intros d. unfold group.
    destruct (artifactFile d) as [file |]; [| reflexivity].
    rewrite extractFiles_emits. unfold downloadArtifacts.
    destruct (String.eqb rc ""); reflexivity.
  - intros d [Hd | Hd]; unfold group, artifactFile; rewrite Hd; reflexivity.
Qed.

Lemma GeneratePreBuild_dependency_artifacts_witness :
  (exists before,
     emitted (@GeneratePreBuild sampleEnv sampleInfo) =
       before ++
       [INotice "Downloading artifacts for %s (%d)..."
                [VString "compile"; VInt 11];
        ICommand "gitlab-runner"
                 ["artifacts"; "--download";
                  "--url"; "https://gitlab.example.com/ci";
                  "--token"; "t11"; "--id"; "11"; "--file"; "compile.zip"];
        INotice "Restoring %s..." [VString "compile"];
        ICommand "gitlab-runner" ["extract"; "--file"; "compile.zip"];
        IRmFile "compile.zip";
        INotice "Downloading artifacts for %s (%d)..."
                [VString "docs"; VInt 13];
        ICommand "gitlab-runner"
                 ["artifacts"; "--download";
                  "--url"; "https://gitlab.example.com/ci";
                  "--token"; "t13"; "--id"; "13"; "--file"; "docs.zip"];
        INotice "Restoring %s..." [VString "docs"];
        ICommand "gitlab-runner" ["extract"; "--file"; "docs.zip"];
        IRmFile "docs.zip"] /\
     List.filter isRmFile before = [] /\
     List.filter isArtifactsCommand before = []) /\
  (exists before,
     emitted (@GeneratePreBuild sampleEnv noCompanionInfo) =
       before ++
       [IWarning
          "The artifacts downloading is not supported in this executor." [];
        IWarning "The %s is not supported in this executor."
                 [VString "compile"];
        IRmFile "compile.zip";
        IWarning
          "The artifacts downloading is not supported in this executor." [];
        IWarning "The %s is not supported in this executor."
                 [VString "docs"];
        IRmFile "docs.zip"] /\
     List.filter isRmFile before = [] /\
     List.filter isArtifactsCommand before = []).
Proof.
  split.
  - exact (proj1 (@GeneratePreBuild_dependency_artifacts sampleEnv sampleInfo
                    sampleSha_long)).
  - exact (proj1 (@GeneratePreBuild_dependency_artifacts sampleEnv
                    noCompanionInfo sampleSha_long)).
Defined.

(** ** Command execution *)

Lemma flat_map_single {A} (g : A -> Instr) (l : list A) :
  flat_map (fun x => [g x]) l = map g l.
Proof.
  induction l as [| x l IH]; [reflexivity |].
  cbn [flat_map map app]. rewrite IH. reflexivity.
Qed.

Lemma filter_isLine_echo (lines : list string) :
  List.filter isLine
    (flat_map (fun line =>
                 [if String.eqb line "" then IEmptyLine
                  else INotice "$ %s" [VString line];
                  ILine line]) lines) = map ILine lines.
Proof.
  induction lines as [| l ls IH]; [reflexivity |].
  cbn [flat_map map]. rewrite List.filter_app, IH.
  destruct (String.eqb l ""); reflexivity.
Qed.

Lemma filter_isLine_lines (lines : list string) :
  List.filter isLine (map ILine lines) = map ILine lines.
Proof.
  induction lines as [| l ls IH]; [reflexivity |].
  cbn [List.filter map isLine]. rewrite IH. reflexivity.
Qed.

Lemma GenerateCommands_emits `{Externals} (info : ShellScriptInfo) :
  let build := info_Build info in
  let verbose := negb (BoolOrDefault (DisableVerbose (Runner build)) false) in
  let echo line :=
    (if verbose
     then [if String.eqb line "" then IEmptyLine
           else INotice "$ %s" [VString line]]
     else []) ++ [ILine line] in
  GenerateCommands info =
  (map IVariable (GetAllVariables build) ++
   [ICd (FullProjectDir build)] ++
   flat_map echo (map TrimSpace (Split_nl (TrimSpace (Commands build)))),
   Ok tt).
Proof.
  intros build verbose echo. unfold GenerateCommands, writeCdBuildDir.
  fold build. rewrite writeExports_emits.
  rewrite forEach_completes.
  - rewrite !seq_completes by reflexivity. cbn [emitted fst emit].
    do 3 f_equal. fold verbose.
    induction (Split_nl _) as [| line lines IH].
    + reflexivity.
    + cbn [flat_map map]. rewrite IH. f_equal. unfold echo.
      destruct verbose; [destruct (String.eqb (TrimSpace line) "") |];
        reflexivity.
  - intros line. fold verbose.
    destruct verbose; [destruct (String.eqb (TrimSpace line) "") |];
      reflexivity.
Qed.

(** ** Post-build generation *)

Lemma GeneratePostBuild_emits `{Externals} (info : ShellScriptInfo) :
  let build := info_Build info in
  let rc := RunnerCommand info in
  GeneratePostBuild info =
  (map IVariable (GetAllVariables build) ++
   [ICd (FullProjectDir build)] ++
   emitted (writeTLSCAInfo build "CI_SERVER_TLS_CA_FILE") ++
   (if String.eqb (CacheFile build) "" then []
    else emitted (archiveFiles (index (Options build) "cache") rc
                               "cache" (CacheFile build))) ++
   match Network build with
   | Some _ =>
       emitted (archiveFiles (index (Options build) "artifacts") rc
                             "artifacts" "artifacts.zip") ++
       [IIfFile "artifacts.zip"] ++
       emitted (uploadArtifacts build rc "artifacts.zip") ++
       [IRmFile "aritfacts.zip"; IEndIf]
   | None => []
   end,
   Ok tt).
Proof.
  intros build rc. unfold GeneratePostBuild, writeCdBuildDir.
  fold build rc. rewrite writeExports_emits.
  assert (Hcache :
    outcome (if negb (String.eqb (CacheFile build) "")
             then archiveFiles (index (Options build) "cache") rc
                               "cache" (CacheFile build)
             else ret tt) = Ok tt).
  { destruct (String.eqb _ _); [reflexivity | apply archiveFiles_completes]. }
  rewrite !seq_completes
    by (reflexivity || apply writeTLSCAInfo_completes || exact Hcache).
  cbn [emitted fst emit outcome snd].
  destruct (Network build) as [net |].
  - rewrite !seq_completes
      by (reflexivity || apply archiveFiles_completes
          || apply uploadArtifacts_completes).
    destruct (String.eqb (CacheFile build) ""); reflexivity.
  - destruct (String.eqb (CacheFile build) ""); reflexivity.
Qed.

(** C5: [GenerateCommands] exports the variables, changes to the build
    directory, trims the command block, splits it at newlines and trims each
    piece, so that no line begins or ends with white space; every resulting
    line, blank or not, is emitted once as a literal line.  With verbose echo (the default) a non-blank line is preceded by
    the notice ["$ <line>"] and a blank line by the blank-line marker; with
    echo disabled only the literal lines follow the directory change. *)
Theorem GenerateCommands_echoes_lines `{Externals}
    (info : ShellScriptInfo) :
  let build := info_Build info in
  let verbose := negb (BoolOrDefault (DisableVerbose (Runner build)) false) in
  let lines := map TrimSpace (Split_nl (TrimSpace (Commands build))) in
  let start := map IVariable (GetAllVariables build) ++
               [ICd (FullProjectDir build)] in
  let echo line :=
    [if String.eqb line "" then IEmptyLine
     else INotice "$ %s" [VString line];
     ILine line] in
  outcome (GenerateCommands info) = Ok tt /\
  (forall line, In line lines ->
                headSpace line = false /\ lastSpace line = false) /\
  List.filter isLine (emitted (GenerateCommands info)) = map ILine lines /\
  emitted (GenerateCommands info) =
    (if verbose then start ++ flat_map echo lines
     else start ++ map ILine lines) /\
  (forall line, Sprintf "$ %s" [VString line] = String.append "$ " line) /\
  (DisableVerbose (Runner build) = None ->
   Commands build =
     String.append "  echo hi"
       (String.append newline (String.append newline "  ls  ")) ->
   emitted (GenerateCommands info) =
     start ++
     [INotice "$ %s" [VString "echo hi"]; ILine "echo hi";
      IEmptyLine; ILine "";
      INotice "$ %s" [VString "ls"]; ILine "ls"]).
Proof.
  intros build verbose lines start echo.
  pose proof (GenerateCommands_emits info) as Hgen. cbv zeta in Hgen.
  fold build verbose lines in Hgen.
  assert (Hemit : emitted (GenerateCommands info) =
                  (if verbose then start ++ flat_map echo lines
                   else start ++ map ILine lines)).
  { rewrite Hgen. cbn [emitted fst]. unfold start.
    rewrite <- !app_assoc.
    destruct verbose; [reflexivity |].
    cbn [app]. rewrite flat_map_single. reflexivity. }
  split; [rewrite Hgen; reflexivity |].
  split.
  { intros line Hin. unfold lines in Hin. apply in_map_iff in Hin.
    destruct Hin as (raw & <- & _). apply TrimSpace_trimmed. }
  split; [| split; [exact Hemit | split]].
  - rewrite Hemit.
    assert (Hstart : List.filter isLine start = []).
    { unfold start. rewrite List.filter_app.
      rewrite (filter_none isLine (map IVariable _))
        by (apply forallb_map_IVariable; reflexivity).
      reflexivity. }
    destruct verbose; rewrite List.filter_app, Hstart; cbn [app].
    + apply filter_isLine_echo.
    + apply filter_isLine_lines.
  - intros line. cbn. rewrite append_empty_r. reflexivity.
  - intros Hverbose Hcommands. rewrite Hemit.
    unfold verbose, lines. rewrite Hverbose, Hcommands. reflexivity.
Qed.

Lemma GenerateCommands_echoes_lines_witness :
  emitted (@GenerateCommands sampleEnv sampleInfo) =
    [IVariable (mkBuildVariable "CI_BUILD_REF" sampleSha true true false);
     ICd "/builds/group/project";
     INotice "$ %s" [VString "echo hi"]; ILine "echo hi";
     IEmptyLine; ILine "";
     INotice "$ %s" [VString "ls"]; ILine "ls"].
Proof.
  apply (@GenerateCommands_echoes_lines sampleEnv sampleInfo); reflexivity.
Defined.

(** ** Artifact upload *)

(** C1: [GeneratePostBuild] runs the artifact step exactly when [Network] is
    set: the archive helper on the ["artifacts"] options against
    [artifacts.zip], then a file-existence conditional on [artifacts.zip]
    holding the upload.  The file removed under that conditional is
    [aritfacts.zip]: no output of [GeneratePostBuild] removes the archive
    [artifacts.zip] itself. *)
Theorem GeneratePostBuild_artifact_step `{Externals}
    (info : ShellScriptInfo) :
  let build := info_Build info in
  let rc := RunnerCommand info in
  let common :=
    map IVariable (GetAllVariables build) ++
    [ICd (FullProjectDir build)] ++
    emitted (writeTLSCAInfo build "CI_SERVER_TLS_CA_FILE") ++
    (if String.eqb (CacheFile build) "" then []
     else emitted (archiveFiles (index (Options build) "cache") rc
                                "cache" (CacheFile build))) in
  (Network build = None -> emitted (GeneratePostBuild info) = common) /\
  (Network build <> None ->
   emitted (GeneratePostBuild info) =
     common ++
     emitted (archiveFiles (index (Options build) "artifacts") rc
                           "artifacts" "artifacts.zip") ++
     [IIfFile "artifacts.zip"] ++
     emitted (uploadArtifacts build rc "artifacts.zip") ++
     [IRmFile "aritfacts.zip"; IEndIf]) /\
  ~ In (IRmFile "artifacts.zip") (emitted (GeneratePostBuild info)).
Proof.
  intros build rc common.
  pose proof (GeneratePostBuild_emits info) as Hgen. cbv zeta in Hgen.
  fold build rc in Hgen. apply (f_equal emitted) in Hgen.
  cbn [emitted fst] in Hgen.
  split; [| split].
  - intros Hnet. rewrite Hgen, Hnet. unfold common.
    rewrite <- ?app_assoc, ?app_nil_r. reflexivity.
  - intros Hnet. rewrite Hgen. unfold common.
    destruct (Network build); [| contradiction].
    rewrite <- !app_assoc. reflexivity.
  - intros Hin.
    assert (Hnone : forallb (fun i => negb (removesArchive i))
                      (emitted (GeneratePostBuild info)) = true).
    { rewrite Hgen. rewrite !forallb_app.
      rewrite forallb_map_IVariable by reflexivity.
      assert (Harch : forall list ty f,
                forallb (fun i => negb (removesArchive i))
                        (emitted (archiveFiles list rc ty f)) = true).
      { intros. apply archiveFiles_all; reflexivity. }
      destruct (Network build);
        rewrite ?forallb_app, ?Harch, ?uploadArtifacts_all by reflexivity;
        unfold writeTLSCAInfo;
        destruct (String.eqb (TLSCAChain build) "");
        destruct (String.eqb (CacheFile build) "");
        rewrite ?Harch; reflexivity. }
    rewrite forallb_forall in Hnone. specialize (Hnone _ Hin).
    discriminate.
Qed.

Lemma GeneratePostBuild_artifact_step_witness :
  emitted (@GeneratePostBuild sampleEnv sampleInfo) =
    [IVariable (mkBuildVariable "CI_BUILD_REF" sampleSha true true false);
     ICd "/builds/group/project";
     IVariable (mkBuildVariable "CI_SERVER_TLS_CA_FILE"
                  "-----BEGIN CERTIFICATE-----" true true true);
     INotice "Archiving %s..." [VString "artifacts"];
     ICommand "gitlab-runner"
              ["archive"; "--file"; "artifacts.zip";
               "--path"; "dist"; "--untracked"];
     IIfFile "artifacts.zip";
     INotice "Uploading artifacts..." [];
     ICommand "gitlab-runner"
              ["artifacts"; "--url"; "https://gitlab.example.com/ci";
               "--token"; "secret"; "--id"; "42";
               "--file"; "artifacts.zip"];
     IRmFile "aritfacts.zip";
     IEndIf].
Proof.
  apply (@GeneratePostBuild_artifact_step sampleEnv sampleInfo).
  discriminate.
Defined.

(** ** The archive helper *)

Lemma collectPaths_entries (paths : list value) :
  collectPaths paths =
  flat_map (fun file => ["--path"; file]) (stringEntries paths).
Proof.
  induction paths as [| v paths IH]; [reflexivity |].
  destruct v; cbn; rewrite ?IH; reflexivity.
Qed.

Lemma archiveArgs_spec (hash : gmap string value) (archivePath : string) :
  archiveArgs hash archivePath =
  ["archive"; "--file"; archivePath] ++
  flat_map (fun file => ["--path"; file]) (pathPatterns hash) ++
  (if includeUntracked hash then ["--untracked"] else []).
Proof.
  unfold archiveArgs, pathPatterns, includeUntracked, index.
  destruct (hash !! "paths") as [[| | | | paths |] |];
    destruct (hash !! "untracked") as [[| [|] | | | |] |];
    cbn [default from_option id app];
    rewrite ?collectPaths_entries, <- ?app_assoc;
    cbn [flat_map app]; rewrite ?app_nil_r; reflexivity.
Qed.

Lemma archiveArgs_length (hash : gmap string value) (archivePath : string) :
  (List.length (archiveArgs hash archivePath) <=? 3)%nat =
  match pathPatterns hash with
  | [] => negb (includeUntracked hash)
  | _ :: _ => false
  end.
Proof.
  rewrite archiveArgs_spec.
  destruct (pathPatterns hash) as [| f fs];
    destruct (includeUntracked hash); reflexivity.
Qed.

(** C7, counterexample: on a map-shaped configuration without a companion
    executable the helper is not silent.  The empty mapping yields no path
    and no untracked flag, yet a warning is emitted. *)
Lemma archiveFiles_warns_on_empty_mapping :
  ToConfigMap (VMap ∅) = Some ∅ /\
  pathPatterns ∅ = [] /\
  includeUntracked ∅ = false /\
  emitted (archiveFiles (VMap ∅) "" "cache" "cache.zip") =
    [IWarning "The %s is not supported in this executor." [VString "cache"]]
  /\
  emitted (archiveFiles (VMap ∅) "" "cache" "cache.zip") <> [].
Proof. repeat split. discriminate. Qed.

(** C7, amended: the archive helper emits nothing when the configuration is
    not a mapping.  For a mapping it emits exactly one warning when the
    companion-executable path is empty; otherwise nothing when the mapping
    yields no argument (no string entry in the path list and untracked not
    true), and else exactly a notice followed by one archive invocation with
    arguments [archive --file <path>], one [--path <pattern>] per string
    entry of the path list in order, then [--untracked] exactly when the
    untracked boolean is true. *)
Theorem archiveFiles_contract
    (list : value) (runnerCommand archiveType archivePath : string) :
  (ToConfigMap list = None ->
   archiveFiles list runnerCommand archiveType archivePath = ([], Ok tt)) /\
  (forall hash, ToConfigMap list = Some hash ->
     (runnerCommand = "" ->
      archiveFiles list runnerCommand archiveType archivePath =
        ([IWarning "The %s is not supported in this executor."
                   [VString archiveType]], Ok tt)) /\
     (runnerCommand <> "" ->
      pathPatterns hash = [] -> includeUntracked hash = false ->
      archiveFiles list runnerCommand archiveType archivePath = ([], Ok tt))
     /\
     (runnerCommand <> "" ->
      pathPatterns hash <> [] \/ includeUntracked hash = true ->
      archiveFiles list runnerCommand archiveType archivePath =
        ([INotice "Archiving %s..." [VString archiveType];
          ICommand runnerCommand
            (["archive"; "--file"; archivePath] ++
             flat_map (fun file => ["--path"; file]) (pathPatterns hash) ++
             (if includeUntracked hash then ["--untracked"] else []))],
         Ok tt))).
Proof.
  split.
  - intros Hmap. unfold archiveFiles. rewrite Hmap. reflexivity.
  - intros hash Hmap. unfold archiveFiles. rewrite Hmap.
    split; [| split].
    + intros ->. reflexivity.
    + intros Hrc Hpaths Huntracked.
      destruct (String.eqb_spec runnerCommand ""); [contradiction |].
      rewrite archiveArgs_length, Hpaths, Huntracked. reflexivity.
    + intros Hrc Hsome.
      destruct (String.eqb_spec runnerCommand ""); [contradiction |].
      rewrite archiveArgs_length, archiveArgs_spec.
      destruct (pathPatterns hash) as [| f fs]; [| reflexivity].
      destruct Hsome as [Hp | Hu]; [contradiction |].
      rewrite Hu. reflexivity.
Qed.

Lemma archiveFiles_contract_witness :
  archiveFiles (VString "dist") "gitlab-runner" "artifacts" "artifacts.zip"
    = ([], Ok tt) /\
  archiveFiles (VMap sampleOptions) "gitlab-runner" "artifacts"
               "artifacts.zip" = ([], Ok tt) /\
  archiveFiles (index sampleOptions "artifacts") "" "artifacts"
               "artifacts.zip" =
    ([IWarning "The %s is not supported in this executor."
               [VString "artifacts"]], Ok tt) /\
  archiveFiles (index sampleOptions "artifacts") "gitlab-runner" "artifacts"
               "artifacts.zip" =
    ([INotice "Archiving %s..." [VString "artifacts"];
      ICommand "gitlab-runner"
               ["archive"; "--file"; "artifacts.zip";
                "--path"; "dist"; "--untracked"]], Ok tt).
Proof.
  split; [| split; [| split]].
  - apply (proj1 (archiveFiles_contract (VString "dist") "gitlab-runner"
                    "artifacts" "artifacts.zip")).
    reflexivity.
  - apply (proj2 (archiveFiles_contract (VMap sampleOptions) "gitlab-runner"
                    "artifacts" "artifacts.zip") sampleOptions eq_refl);
      [discriminate | reflexivity | reflexivity].
  - apply (proj2 (archiveFiles_contract (index sampleOptions "artifacts") ""
                    "artifacts" "artifacts.zip")
             (<["paths" := VList [VString "dist"]]>
                (<["untracked" := VBool true]> ∅)) eq_refl).
    reflexivity.
  - apply (proj2 (archiveFiles_contract (index sampleOptions "artifacts")
                    "gitlab-runner" "artifacts" "artifacts.zip")
             (<["paths" := VList [VString "dist"]]>
                (<["untracked" := VBool true]> ∅)) eq_refl);
      [discriminate | right; reflexivity].
Defined.

(** ** Well-nested conditionals *)

Lemma wellNested_plain (l : list Instr) :
  forallb plain l = true -> wellNested l = true.
Proof. intros Hl. unfold wellNested. rewrite (run_plain l [] Hl). reflexivity. Qed.

Lemma run_restoreCache `{Externals} (info : ShellScriptInfo)
    (l2 : list Instr) :
  run [] (emitted (restoreCache info) ++ l2) = run [] l2.
Proof.
  rewrite restoreCache_emits. cbv zeta. cbn [emitted fst].
  repeat match goal with
         | |- context [if ?b then _ else _] => destruct b
         end;
    rewrite <- ?app_assoc; cbn [app run];
    rewrite ?run_skip by apply extractFiles_plain;
    cbn [app run];
    rewrite ?run_skip by apply extractFiles_plain;
    reflexivity.
Qed.

(** C10: the calls made by each of the three entry points are well nested:
    every [IfDirectory] and [IfFile] is closed by its own [EndIf], with at
    most one [Else] in between, and no [Else] or [EndIf] occurs outside an
    open conditional.  For [GeneratePreBuild] this holds of the calls made
    whether or not the run reaches the end. *)
Theorem entry_points_well_nested `{Externals} (info : ShellScriptInfo) :
  wellNested (emitted (GeneratePreBuild info)) = true /\
  wellNested (emitted (GenerateCommands info)) = true /\
  wellNested (emitted (GeneratePostBuild info)) = true.
Proof.
  split; [| split].
  - unfold wellNested.
    destruct (le_lt_dec 8 (String.length (Sha (info_Build info))))
      as [Hlen | Hlen].
    + rewrite (GeneratePreBuild_long info Hlen). cbn [emitted fst].
      pose proof (fileChecks_before_cache info
                    (emitted (restoreCache info) ++
                     flat_map (fun d => emitted (processArtifact info d))
                              (DependsOnBuilds (info_Build info))))
        as [_ Hbefore].
      rewrite <- !app_assoc in Hbefore. cbn [app] in Hbefore |- *.
      rewrite Hbefore, run_restoreCache.
      rewrite run_plain by apply processArtifacts_plain. reflexivity.
    + rewrite (GeneratePreBuild_short info Hlen). cbn [emitted fst].
      rewrite !run_skip
        by (apply exports_plain || apply writeTLSCAInfo_plain).
      destruct (AllowGitFetch _); reflexivity.
  - apply wellNested_plain. rewrite GenerateCommands_emits.
    cbv zeta. cbn [emitted fst]. rewrite !forallb_app.
    rewrite exports_plain. cbn [forallb plain andb].
    apply forallb_flat_map. intros line.
    destruct (negb _); [destruct (String.eqb line "") |]; reflexivity.
  - unfold wellNested. rewrite GeneratePostBuild_emits.
    cbv zeta. cbn [emitted fst].
    rewrite run_skip by apply exports_plain.
    cbn [app run].
    rewrite run_skip by apply writeTLSCAInfo_plain.
    rewrite run_skip
      by (destruct (String.eqb _ _);
          [reflexivity | apply archiveFiles_plain]).
    destruct (Network _); [| reflexivity].
    rewrite run_skip by apply archiveFiles_plain. cbn [app run].
    rewrite run_skip by apply uploadArtifacts_plain. reflexivity.
Qed.

(** * Further properties of the generator *)

(** ** What every phase starts with *)

(** X1: each of the three entry points first exports the declared build
    variables, in order; [GenerateCommands] and [GeneratePostBuild] then
    change into the project directory, and make no other directory
    change. *)
Theorem phases_start_with_exports `{Externals} (info : ShellScriptInfo) :
  let build := info_Build info in
  let exports := map IVariable (GetAllVariables build) in
  (exists rest, emitted (GeneratePreBuild info) = exports ++ rest) /\
  (exists rest,
     emitted (GenerateCommands info) =
       exports ++ ICd (FullProjectDir build) :: rest /\
     List.filter isCd rest = []) /\
  (exists rest,
     emitted (GeneratePostBuild info) =
       exports ++ ICd (FullProjectDir build) :: rest /\
     List.filter isCd rest = []).
Proof.
  intros build exports. split; [| split].
  - destruct (le_lt_dec 8 (String.length (Sha build))) as [Hlen | Hlen].
    + rewrite (GeneratePreBuild_long info Hlen). eexists. reflexivity.
    + rewrite (GeneratePreBuild_short info Hlen). eexists. reflexivity.
  - rewrite GenerateCommands_emits. eexists. split; [reflexivity |].
    apply filter_none, forallb_flat_map. intros line.
    destruct (negb _); [destruct (String.eqb line "") |]; reflexivity.
  - rewrite GeneratePostBuild_emits. eexists. split; [reflexivity |].
    apply filter_none. rewrite !forallb_app.
    assert (Harch : forall list ty f,
              forallb (fun i => negb (isCd i))
                      (emitted (archiveFiles list (RunnerCommand info) ty f))
              = true).
    { intros. apply archiveFiles_all; reflexivity. }
    destruct (Network (info_Build info));
      rewrite ?forallb_app, ?Harch, ?uploadArtifacts_all by reflexivity;
      unfold writeTLSCAInfo;
      destruct (String.eqb (TLSCAChain _) "");
      destruct (String.eqb (CacheFile _) "");
      rewrite ?Harch; reflexivity.
Qed.

(** ** Trust anchors, phase by phase *)

(** X2: the command phase exports the declared variables only, without any
    trust-anchor variable; the post-build phase adds, for a non-empty
    [TLSCAChain], the single file variable [CI_SERVER_TLS_CA_FILE] and never
    [GIT_SSL_CAINFO]. *)
Theorem TLS_variables_by_phase `{Externals} (info : ShellScriptInfo) :
  let build := info_Build info in
  List.filter isVariable (emitted (GenerateCommands info)) =
    map IVariable (GetAllVariables build) /\
  List.filter isVariable (emitted (GeneratePostBuild info)) =
    map IVariable (GetAllVariables build) ++
    (if String.eqb (TLSCAChain build) "" then []
     else [IVariable {| Key := "CI_SERVER_TLS_CA_FILE";
                        Value := TLSCAChain build;
                        Public := true; Internal := true; File := true |}]).
Proof.
  intros build. split.
  - rewrite GenerateCommands_emits. cbv zeta. cbn [emitted fst].
    rewrite !List.filter_app, filter_isVariable_exports.
    rewrite (filter_none isVariable (flat_map _ _)).
    + cbn. rewrite app_nil_r. reflexivity.
    + apply forallb_flat_map. intros line.
      destruct (negb _); [destruct (String.eqb line "") |]; reflexivity.
  - rewrite GeneratePostBuild_emits. cbv zeta. cbn [emitted fst]. fold build.
    rewrite !List.filter_app, filter_isVariable_exports.
    assert (Harch : forall list ty f,
              List.filter isVariable
                (emitted (archiveFiles list (RunnerCommand info) ty f)) = []).
    { intros. apply filter_none, archiveFiles_all; reflexivity. }
    assert (Hup : forall f,
              List.filter isVariable
                (emitted (uploadArtifacts build (RunnerCommand info) f)) = []).
    { intros. apply filter_none, uploadArtifacts_all; reflexivity. }
    assert (Htail :
      List.filter isVariable
        (match Network build with
         | Some _ =>
             emitted (archiveFiles (index (Options build) "artifacts")
                        (RunnerCommand info) "artifacts" "artifacts.zip") ++
             [IIfFile "artifacts.zip"] ++
             emitted (uploadArtifacts build (RunnerCommand info)
                        "artifacts.zip") ++
             [IRmFile "aritfacts.zip"; IEndIf]
         | None => []
         end) = []).
    { destruct (Network build); [| reflexivity].
      rewrite !List.filter_app, Harch, Hup. reflexivity. }
    assert (Hcache :
      List.filter isVariable
        (if String.eqb (CacheFile build) "" then []
         else emitted (archiveFiles (index (Options build) "cache")
                         (RunnerCommand info) "cache" (CacheFile build)))
      = []).
    { destruct (String.eqb (CacheFile build) ""); [reflexivity | apply Harch]. }
    rewrite Htail, Hcache, !app_nil_r.
    unfold writeTLSCAInfo.
    destruct (String.eqb (TLSCAChain build) ""); reflexivity.
Qed.

(** ** Which commands are run *)

Lemma admissible_extractFiles (rc ty f : string) :
  forallb (admissible rc) (emitted (extractFiles rc ty f)) = true.
Proof.
  unfold extractFiles. destruct (String.eqb rc "") eqn:Hrc; cbn.
  - reflexivity.
  - rewrite Hrc, String.eqb_refl. cbn. rewrite orb_true_r. reflexivity.
Qed.

Lemma admissible_downloadArtifacts runner (d : BuildInfo) (rc f : string) :
  forallb (admissible rc) (emitted (downloadArtifacts runner d rc f)) = true.
Proof.
  unfold downloadArtifacts. destruct (String.eqb rc "") eqn:Hrc; cbn.
  - reflexivity.
  - rewrite Hrc, String.eqb_refl. cbn. rewrite orb_true_r. reflexivity.
Qed.

Lemma admissible_uploadArtifacts (build : Build) (rc f : string) :
  forallb (admissible rc) (emitted (uploadArtifacts build rc f)) = true.
Proof.
  unfold uploadArtifacts. destruct (String.eqb rc "") eqn:Hrc; cbn.
  - reflexivity.
  - rewrite Hrc, String.eqb_refl. cbn. rewrite orb_true_r. reflexivity.
Qed.

Lemma admissible_archiveFiles (list : value) (rc ty f : string) :
  forallb (admissible rc) (emitted (archiveFiles list rc ty f)) = true.
Proof.
  unfold archiveFiles. destruct (ToConfigMap list); [| reflexivity].
  destruct (String.eqb rc "") eqn:Hrc; [reflexivity |].
  destruct (_ <=? 3)%nat; [reflexivity |]. cbn.
  rewrite Hrc, String.eqb_refl. cbn. rewrite orb_true_r. reflexivity.
Qed.

Lemma admissible_before_checkout `{Externals} (info : ShellScriptInfo) :
  let build := info_Build info in
  forallb (admissible (RunnerCommand info))
    (map IVariable (GetAllVariables build) ++
     emitted (writeTLSCAInfo build "GIT_SSL_CAINFO") ++
     emitted (writeTLSCAInfo build "CI_SERVER_TLS_CA_FILE") ++
     emitted (if AllowGitFetch build
              then writeFetchCmd build (FullProjectDir build)
                                 (path_Join [FullProjectDir build; ".git"])
              else writeCloneCmd build (FullProjectDir build))) = true.
Proof.
  intros build. rewrite !forallb_app.
  rewrite forallb_map_IVariable by reflexivity.
  rewrite sync_all by reflexivity.
  unfold writeTLSCAInfo. destruct (String.eqb _ _); reflexivity.
Qed.

Lemma admissible_restoreCache `{Externals} (info : ShellScriptInfo) :
  forallb (admissible (RunnerCommand info)) (emitted (restoreCache info))
  = true.
Proof.
  rewrite restoreCache_emits. cbv zeta. cbn [emitted fst].
  repeat match goal with
         | |- context [if ?b then _ else _] => destruct b
         end;
    rewrite ?forallb_app, ?admissible_extractFiles; reflexivity.
Qed.

Lemma admissible_processArtifacts `{Externals} (info : ShellScriptInfo)
    (deps : list BuildInfo) :
  forallb (admissible (RunnerCommand info))
          (flat_map (fun d => emitted (processArtifact info d)) deps) = true.
Proof.
  apply forallb_flat_map. intros d. rewrite processArtifact_emits.
  destruct (artifactFile d); [| reflexivity].
  rewrite !forallb_app, admissible_downloadArtifacts,
          admissible_extractFiles.
  reflexivity.
Qed.

(** X3: whatever the input, a command invocation emitted by an entry point
    runs either [git] or the companion executable, and the companion only
    under a non-empty path; [GenerateCommands] emits no command invocation
    at all (user commands are passed as literal lines). *)
Theorem commands_run_git_or_companion `{Externals}
    (info : ShellScriptInfo) :
  (forall c args,
     In (ICommand c args)
        (emitted (GeneratePreBuild info) ++
         emitted (GeneratePostBuild info)) ->
     c = "git" \/ (c = RunnerCommand info /\ c <> "")) /\
  List.filter isCommand (emitted (GenerateCommands info)) = [].
Proof.
  split.
  - intros c args Hin. assert (Hall : forallb (admissible (RunnerCommand info))
                     (emitted (GeneratePreBuild info) ++
                      emitted (GeneratePostBuild info)) = true).
    { rewrite forallb_app. apply andb_true_intro. split.
      - destruct (le_lt_dec 8 (String.length (Sha (info_Build info))))
          as [Hlen | Hlen].
        + rewrite (GeneratePreBuild_long info Hlen). cbn [emitted fst].
          rewrite !forallb_app.
          rewrite admissible_processArtifacts, admissible_restoreCache.
          rewrite forallb_map_IVariable by reflexivity.
          rewrite sync_all by reflexivity.
          unfold writeTLSCAInfo. destruct (String.eqb _ _); reflexivity.
        + rewrite (GeneratePreBuild_short info Hlen).
          apply admissible_before_checkout.
      - rewrite GeneratePostBuild_emits. cbv zeta. cbn [emitted fst].
        rewrite !forallb_app.
        rewrite forallb_map_IVariable by reflexivity.
        destruct (Network (info_Build info));
          rewrite ?forallb_app, ?admissible_archiveFiles,
                  ?admissible_uploadArtifacts;
          unfold writeTLSCAInfo;
          destruct (String.eqb (TLSCAChain _) "");
          destruct (String.eqb (CacheFile _) "");
          rewrite ?admissible_archiveFiles; reflexivity. }
    rewrite forallb_forall in Hall. specialize (Hall _ Hin).
    cbn [admissible] in Hall. apply orb_prop in Hall as [Hgit | Hrc].
    + left. apply String.eqb_eq, Hgit.
    + right. apply andb_prop in Hrc as [Hc Hne].
      apply String.eqb_eq in Hc. subst c. split; [reflexivity |].
      intros Hempty. rewrite Hempty in Hne. discriminate.
  - rewrite GenerateCommands_emits. cbv zeta. cbn [emitted fst].
    apply filter_none. rewrite !forallb_app.
    rewrite forallb_map_IVariable by reflexivity. cbn [forallb isCommand negb andb].
    apply forallb_flat_map. intros line.
    destruct (negb _); [destruct (String.eqb line "") |]; reflexivity.
Qed.

Lemma commands_run_git_or_companion_witness :
  "gitlab-runner" = "git" \/
  ("gitlab-runner" = RunnerCommand sampleInfo /\ "gitlab-runner" <> "").
Proof.
  apply (proj1 (@commands_run_git_or_companion sampleEnv sampleInfo)
           "gitlab-runner" ["extract"; "--file"; "cache/feature.zip"]).
  vm_compute. tauto.
Defined.

(** ** Command blocks: blank input and line count *)

Lemma GenerateCommands_lines `{Externals} (info : ShellScriptInfo) :
  List.filter isLine (emitted (GenerateCommands info)) =
  map ILine (map TrimSpace
               (Split_nl (TrimSpace (Commands (info_Build info))))).
Proof.
  rewrite GenerateCommands_emits. cbv zeta. cbn [emitted fst].
  rewrite !List.filter_app.
  rewrite (filter_none isLine (map IVariable _))
    by (apply forallb_map_IVariable; reflexivity).
  cbn [List.filter isLine app].
  induction (map TrimSpace _) as [| line lines IH]; [reflexivity |].
  cbn [flat_map map]. rewrite List.filter_app, IH.
  destruct (negb _); [destruct (String.eqb line "") |]; reflexivity.
Qed.

Lemma Split_nl_length (s : string) :
  List.length (Split_nl s) = S (countNewlines s).
Proof.
  induction s as [| c s IH]; [reflexivity |].
  cbn [Split_nl countNewlines].
  destruct (Ascii.eqb c (byte 10)).
  - cbn [List.length]. rewrite IH. reflexivity.
  - destruct (Split_nl s) as [| piece rest]; [discriminate |].
    cbn [List.length] in *. rewrite IH. reflexivity.
Qed.

(** X4: a command block that is empty or consists of white space only still
    yields one blank literal line: after the exports and the directory
    change, [GenerateCommands] emits the blank-line marker (with verbose
    echo) and [Line("")], and nothing else. *)
Theorem GenerateCommands_blank_block `{Externals} (info : ShellScriptInfo) :
  let build := info_Build info in
  TrimSpace (Commands build) = "" ->
  emitted (GenerateCommands info) =
    map IVariable (GetAllVariables build) ++
    [ICd (FullProjectDir build)] ++
    (if BoolOrDefault (DisableVerbose (Runner build)) false
     then [ILine ""]
     else [IEmptyLine; ILine ""]).
Proof.
  intros build Hblank. rewrite GenerateCommands_emits. cbv zeta.
  fold build. rewrite Hblank. cbn [emitted fst].
  destruct (BoolOrDefault _ _); reflexivity.
Qed.

Lemma GenerateCommands_blank_block_witness :
  emitted (@GenerateCommands sampleEnv
             (mkShellScriptInfo
                (setCommands (String.append "  " (String.append newline " "))
                             sampleBuild)
                "gitlab-runner")) =
    [IVariable (mkBuildVariable "CI_BUILD_REF" sampleSha true true false);
     ICd "/builds/group/project";
     IEmptyLine; ILine ""].
Proof.
  apply (@GenerateCommands_blank_block sampleEnv
           (mkShellScriptInfo
              (setCommands (String.append "  " (String.append newline " "))
                           sampleBuild)
              "gitlab-runner")).
  reflexivity.
Defined.

(** X5: [GenerateCommands] keeps the physical line structure of the trimmed
    command block: the number of literal lines it emits is one more than
    the number of newline bytes of the trimmed block, with or without
    verbose echo. *)
Theorem GenerateCommands_line_count `{Externals} (info : ShellScriptInfo) :
  List.length (List.filter isLine (emitted (GenerateCommands info))) =
  S (countNewlines (TrimSpace (Commands (info_Build info)))).
Proof.
  rewrite GenerateCommands_lines, !length_map. apply Split_nl_length.
Qed.

(** ** The checkout step *)

(** X6: on a [Sha] shorter than 8 bytes the writer has already received the
    variable exports and the complete repository-sync segment when
    [GeneratePreBuild] panics; it has received nothing of the checkout, of
    the cache restoration or of the dependency artifacts. *)
Theorem GeneratePreBuild_partial_output `{Externals}
    (info : ShellScriptInfo) :
  let build := info_Build info in
  let dir := FullProjectDir build in
  let tls key := IVariable {| Key := key;
                              Value := TLSCAChain build;
                              Public := true;
                              Internal := true;
                              File := true |} in
  let clone := [INotice "Cloning repository..." [];
                IRmDir dir;
                ICommand "git" ["clone"; RepoURL build; dir];
                ICd dir] in
  String.length (Sha build) < 8 ->
  GeneratePreBuild info =
    (map IVariable (GetAllVariables build) ++
     (if String.eqb (TLSCAChain build) "" then []
      else [tls "GIT_SSL_CAINFO"; tls "CI_SERVER_TLS_CA_FILE"]) ++
     (if AllowGitFetch build
      then [IIfDirectory (path_Join [dir; ".git"]);
            INotice "Fetching changes..." [];
            ICd dir;
            ICommand "git" ["clean"; "-ffdx"];
            ICommand "git" ["reset"; "--hard"];
            ICommand "git" ["remote"; "set-url"; "origin"; RepoURL build];
            ICommand "git" ["fetch"; "origin"];
            IElse] ++ clone ++ [IEndIf]
      else clone),
     Panicked "slice bounds out of range").
Proof.
  intros build dir tls clone Hlen.
  rewrite (GeneratePreBuild_short info Hlen). fold build dir.
  unfold writeTLSCAInfo.
  destruct (String.eqb (TLSCAChain build) "");
    destruct (AllowGitFetch build); reflexivity.
Qed.

Lemma GeneratePreBuild_partial_output_witness :
  @GeneratePreBuild sampleEnv
    (mkShellScriptInfo (sampleBuildWith "1a2b3c4" false "" None)
                       "gitlab-runner") =
  ([IVariable (mkBuildVariable "CI_BUILD_REF" "1a2b3c4" true true false);
    INotice "Cloning repository..." [];
    IRmDir "/builds/group/project";
    ICommand "git" ["clone"; "https://gitlab.example.com/group/project.git";
                    "/builds/group/project"];
    ICd "/builds/group/project"],
   Panicked "slice bounds out of range").
Proof.
  apply (@GeneratePreBuild_partial_output sampleEnv
           (mkShellScriptInfo (sampleBuildWith "1a2b3c4" false "" None)
                              "gitlab-runner")).
  simpl. lia.
Defined.

Lemma substring_prefix (n : nat) (s : string) :
  n <= String.length s ->
  String.length (substring 0 n s) = n /\
  s = String.append (substring 0 n s)
                    (substring n (String.length s - n) s).
Proof.
  revert s. induction n as [| n IH]; intros s Hn.
  - split; [destruct s; reflexivity |].
    rewrite Nat.sub_0_r.
    assert (Hall : forall t, substring 0 (String.length t) t = t).
    { induction t as [| c t IHt]; [reflexivity |].
      cbn [String.length substring]. rewrite IHt. reflexivity. }
    rewrite Hall. destruct s; reflexivity.
  - destruct s as [| c s]; [simpl in Hn; lia |].
    destruct (IH s) as [Hlen Hs]; [simpl in Hn; lia |].
    split.
    + cbn [substring String.length]. rewrite Hlen. reflexivity.
    + cbn [substring String.length Nat.sub].
      change (String c s =
              String c (String.append (substring 0 n s)
                          (substring n (String.length s - n) s))).
      f_equal. exact Hs.
Qed.

(** X7: when [Sha] has at least 8 bytes, the checkout step completes; its
    notice shows the first 8 bytes of [Sha] and the ref name, reading
    "Checking out <8 bytes> as <ref>...", while [git checkout] receives the
    whole [Sha]. *)
Theorem writeCheckoutCmd_abbreviates_Sha (build : Build) :
  8 <= String.length (Sha build) ->
  exists sha8 rest,
    Sha build = String.append sha8 rest /\
    String.length sha8 = 8 /\
    writeCheckoutCmd build =
      ([INotice "Checking out %s as %s..."
                [VString sha8; VString (RefName build)];
        ICommand "git" ["checkout"; Sha build]], Ok tt) /\
    Sprintf "Checking out %s as %s..."
            [VString sha8; VString (RefName build)] =
      String.append "Checking out "
        (String.append sha8
           (String.append " as " (String.append (RefName build) "..."))).
Proof.
  intros Hlen. destruct (substring_prefix 8 (Sha build) Hlen) as [H8 Hsplit].
  exists (substring 0 8 (Sha build)),
         (substring 8 (String.length (Sha build) - 8) (Sha build)).
  split; [exact Hsplit | split; [exact H8 | split]].
  - apply writeCheckoutCmd_long, Hlen.
  - reflexivity.
Qed.

Lemma writeCheckoutCmd_abbreviates_Sha_witness :
  exists sha8 rest,
    sampleSha = String.append sha8 rest /\
    String.length sha8 = 8 /\
    writeCheckoutCmd sampleBuild =
      ([INotice "Checking out %s as %s..."
                [VString sha8; VString "feature"];
        ICommand "git" ["checkout"; sampleSha]], Ok tt) /\
    Sprintf "Checking out %s as %s..." [VString sha8; VString "feature"] =
      String.append "Checking out "
        (String.append sha8 (String.append " as " "feature...")).
Proof.
  apply (writeCheckoutCmd_abbreviates_Sha sampleBuild). simpl. lia.
Defined.

(** ** Downloaded archives are cleaned up *)

Lemma no_RmFile_before_artifacts `{Externals} (info : ShellScriptInfo) :
  let build := info_Build info in
  List.filter isRmFile
    (map IVariable (GetAllVariables build) ++
     emitted (writeTLSCAInfo build "GIT_SSL_CAINFO") ++
     emitted (writeTLSCAInfo build "CI_SERVER_TLS_CA_FILE") ++
     emitted (if AllowGitFetch build
              then writeFetchCmd build (FullProjectDir build)
                                 (path_Join [FullProjectDir build; ".git"])
              else writeCloneCmd build (FullProjectDir build)) ++
     [INotice "Checking out %s as %s..."
              [VString (substring 0 8 (Sha build)); VString (RefName build)];
      ICommand "git" ["checkout"; Sha build]] ++
     emitted (restoreCache info)) = [].
Proof.
  intros build. apply filter_none. rewrite !forallb_app.
  rewrite forallb_map_IVariable by reflexivity.
  rewrite sync_all, restoreCache_all by reflexivity.
  unfold writeTLSCAInfo. destruct (String.eqb _ _); reflexivity.
Qed.

(** X8: on a build whose [Sha] has at least 8 bytes, the files
    [GeneratePreBuild] removes are exactly the artifact archives of the
    dependencies that have a non-empty filename, once each and in list
    order, whether or not a companion executable is available. *)
Theorem GeneratePreBuild_removes_downloads `{Externals}
    (info : ShellScriptInfo) :
  let build := info_Build info in
  8 <= String.length (Sha build) ->
  List.filter isRmFile (emitted (GeneratePreBuild info)) =
  flat_map (fun d => match artifactFile d with
                     | Some file => [IRmFile file]
                     | None => []
                     end) (DependsOnBuilds build).
Proof.
  intros build Hlen. rewrite (GeneratePreBuild_long info Hlen).
  cbn [emitted fst].
  pose proof (no_RmFile_before_artifacts info) as Hbefore.
  cbv zeta in Hbefore. rewrite !app_assoc in Hbefore. rewrite !app_assoc.
  rewrite List.filter_app, Hbefore. cbn [app]. subst build.
  induction (DependsOnBuilds (info_Build info)) as [| d deps IH];
    [reflexivity |].
  cbn [flat_map]. rewrite List.filter_app, IH, processArtifact_emits.
  f_equal. destruct (artifactFile d) as [file |]; [| reflexivity].
  rewrite !List.filter_app.
  rewrite (filter_none isRmFile (emitted (downloadArtifacts _ _ _ _))).
  - rewrite (filter_none isRmFile (emitted (extractFiles _ _ _))).
    + reflexivity.
    + apply extractFiles_all; reflexivity.
  - unfold downloadArtifacts. destruct (String.eqb _ ""); reflexivity.
Qed.

Lemma GeneratePreBuild_removes_downloads_witness :
  List.filter isRmFile (emitted (@GeneratePreBuild sampleEnv sampleInfo)) =
  [IRmFile "compile.zip"; IRmFile "docs.zip"].
Proof.
  apply (@GeneratePreBuild_removes_downloads sampleEnv sampleInfo).
  simpl. lia.
Defined.

(** ** What the archive helper reads *)

(** X9: the archive helper depends on a mapping only through the string
    entries of its [paths] list and its [untracked] boolean: two mappings
    that agree on these give the same calls (a value of another type counts
    as absent), and so does a mapping extended at any other key. *)
Theorem archiveFiles_reads_paths_and_untracked
    (runnerCommand archiveType archivePath : string) :
  (forall hash hash' : gmap string value,
     pathPatterns hash = pathPatterns hash' ->
     includeUntracked hash = includeUntracked hash' ->
     archiveFiles (VMap hash) runnerCommand archiveType archivePath =
     archiveFiles (VMap hash') runnerCommand archiveType archivePath) /\
  (forall (hash : gmap string value) (key : string) (v : value),
     key <> "paths" -> key <> "untracked" ->
     archiveFiles (VMap (<[key := v]> hash))
                  runnerCommand archiveType archivePath =
     archiveFiles (VMap hash) runnerCommand archiveType archivePath).
Proof.
  assert (Hagree : forall hash hash' : gmap string value,
     pathPatterns hash = pathPatterns hash' ->
     includeUntracked hash = includeUntracked hash' ->
     archiveFiles (VMap hash) runnerCommand archiveType archivePath =
     archiveFiles (VMap hash') runnerCommand archiveType archivePath).
  { intros hash hash' Hpaths Huntracked. unfold archiveFiles.
    cbn [ToConfigMap]. rewrite !archiveArgs_spec, Hpaths, Huntracked.
    reflexivity. }
  split; [exact Hagree |].
  intros hash key v Hpaths Huntracked. apply Hagree.
  - unfold pathPatterns. rewrite lookup_insert_ne by exact Hpaths.
    reflexivity.
  - unfold includeUntracked. rewrite lookup_insert_ne by exact Huntracked.
    reflexivity.
Qed.

Lemma archiveFiles_reads_paths_and_untracked_witness :
  archiveFiles (VMap (<["paths" := VString "dist"]>
                        (<["untracked" := VString "yes"]> ∅)))
               "gitlab-runner" "cache" "cache.zip" =
  archiveFiles (VMap ∅) "gitlab-runner" "cache" "cache.zip" /\
  archiveFiles (VMap (<["key" := VString "shared"]> sampleOptions))
               "gitlab-runner" "cache" "cache.zip" =
  archiveFiles (VMap sampleOptions) "gitlab-runner" "cache" "cache.zip".
Proof.
  split.
  - apply (proj1 (archiveFiles_reads_paths_and_untracked
                    "gitlab-runner" "cache" "cache.zip")); reflexivity.
  - apply (proj2 (archiveFiles_reads_paths_and_untracked
                    "gitlab-runner" "cache" "cache.zip")); discriminate.
Defined.

(** ** Where post-build archives go *)

Lemma archiveFiles_command (config : value) (rc ty p c : string)
    (args : list string) :
  In (ICommand c args) (emitted (archiveFiles config rc ty p)) ->
  c = rc /\ rc <> "" /\
  exists selection,
    selection <> [] /\ args = ["archive"; "--file"; p] ++ selection.
Proof.
  unfold archiveFiles. destruct (ToConfigMap config) as [hash |];
    [| intros []].
  destruct (String.eqb_spec rc "") as [| Hrc].
  { cbn. intros [Hin | []]. discriminate. }
  destruct (_ <=? 3)%nat eqn:Hlen; [intros [] |].
  cbn. intros [Hin | [Hin | []]]; [discriminate |].
  injection Hin as <- <-. split; [reflexivity | split; [exact Hrc |]].
  rewrite archiveArgs_spec in Hlen |- *.
  eexists. split; [| reflexivity].
  intros Hnil. rewrite Hnil in Hlen. discriminate.
Qed.

(** X10: every [archive] invocation that [GeneratePostBuild] emits selects
    something (it has at least one argument after the file) and writes
    either to the primary cache path, which is then non-empty, or to
    [artifacts.zip], which requires [Network]; the cache path of the
    "master" ref plays no part after the build. *)
Theorem GeneratePostBuild_archive_targets `{Externals}
    (info : ShellScriptInfo) (c : string) (args : list string) :
  let build := info_Build info in
  In (ICommand c ("archive" :: args)) (emitted (GeneratePostBuild info)) ->
  c = RunnerCommand info /\ c <> "" /\
  exists selection,
    selection <> [] /\
    ((args = ["--file"; CacheFile build] ++ selection /\
      CacheFile build <> "") \/
     (args = ["--file"; "artifacts.zip"] ++ selection /\
      Network build <> None)).
Proof.
  intros build. rewrite GeneratePostBuild_emits. cbv zeta.
  cbn [emitted fst]. fold build. rewrite !in_app_iff, in_map_iff.
  intros [(v & Hv & _) | [Hin | [Hin | [Hin | Hin]]]].
  - discriminate.
  - destruct Hin as [Hin | []]. discriminate.
  - unfold writeTLSCAInfo in Hin.
    destruct (String.eqb _ _); cbn in Hin; intuition discriminate.
  - destruct (String.eqb_spec (CacheFile build) "") as [| Hcache];
      [destruct Hin |].
    apply archiveFiles_command in Hin
      as (-> & Hrc & selection & Hsel & Hargs).
    injection Hargs as ->.
    split; [reflexivity | split; [exact Hrc |]].
    exists selection. split; [exact Hsel |]. left. split; auto.
  - destruct (Network build) as [net |]; [| destruct Hin].
    rewrite !in_app_iff in Hin.
    destruct Hin as [Hin | [Hin | [Hin | Hin]]].
    + apply archiveFiles_command in Hin
        as (-> & Hrc & selection & Hsel & Hargs).
      injection Hargs as ->.
      split; [reflexivity | split; [exact Hrc |]].
      exists selection. split; [exact Hsel |]. right. split; [auto |].
      discriminate.
    + destruct Hin as [Hin | []]. discriminate.
    + unfold uploadArtifacts in Hin.
      destruct (String.eqb _ ""); cbn in Hin; intuition discriminate.
    + cbn in Hin. intuition discriminate.
Qed.

Lemma GeneratePostBuild_archive_targets_witness :
  "gitlab-runner" = RunnerCommand sampleInfo /\ "gitlab-runner" <> "" /\
  exists selection,
    selection <> [] /\
    ((["--file"; "artifacts.zip"; "--path"; "dist"; "--untracked"] =
        ["--file"; @CacheFile sampleEnv sampleBuild] ++ selection /\
      @CacheFile sampleEnv sampleBuild <> "") \/
     (["--file"; "artifacts.zip"; "--path"; "dist"; "--untracked"] =
        ["--file"; "artifacts.zip"] ++ selection /\
      Network sampleBuild <> None)).
Proof.
  apply (@GeneratePostBuild_archive_targets sampleEnv sampleInfo
           "gitlab-runner"
           ["--file"; "artifacts.zip"; "--path"; "dist"; "--untracked"]).
  vm_compute. tauto.
Defined.

(** ** The cache written after a build is the one tried first before it *)

(** X11: for a build with a companion executable, a non-empty primary cache
    path and a ["cache"] option that selects something, [GeneratePostBuild]
    archives into the primary cache path, and [GeneratePreBuild] (on a [Sha]
    of at least 8 bytes) makes its first file-existence check, at top level,
    on that same path and extracts from it. *)
Theorem cache_written_is_cache_restored `{Externals}
    (info : ShellScriptInfo) (hash : gmap string value) :
  let build := info_Build info in
  let rc := RunnerCommand info in
  8 <= String.length (Sha build) ->
  rc <> "" ->
  CacheFile build <> "" ->
  ToConfigMap (index (Options build) "cache") = Some hash ->
  pathPatterns hash <> [] \/ includeUntracked hash = true ->
  In (ICommand rc (["archive"; "--file"; CacheFile build] ++
                   flat_map (fun file => ["--path"; file])
                            (pathPatterns hash) ++
                   (if includeUntracked hash then ["--untracked"] else [])))
     (emitted (GeneratePostBuild info)) /\
  In (ICommand rc ["extract"; "--file"; CacheFile build])
     (emitted (GeneratePreBuild info)) /\
  hd_error (fileChecks [] (emitted (GeneratePreBuild info))) =
    Some (CacheFile build, []).
Proof.
  intros build rc Hlen Hrc Hcache Hmap Hsel. split; [| split].
  - rewrite GeneratePostBuild_emits. cbv zeta. cbn [emitted fst].
    fold build rc. rewrite !in_app_iff. do 3 right. left.
    destruct (String.eqb_spec (CacheFile build) ""); [contradiction |].
    unfold archiveFiles. rewrite Hmap.
    destruct (String.eqb_spec rc ""); [contradiction |].
    rewrite archiveArgs_length, archiveArgs_spec.
    destruct (pathPatterns hash) as [| f fs].
    + destruct Hsel as [Hp | Hu]; [contradiction |].
      rewrite Hu. right. left. reflexivity.
    + right. left. reflexivity.
  - rewrite (GeneratePreBuild_long info Hlen). cbn [emitted fst].
    fold build rc. rewrite !in_app_iff. do 5 right. left.
    rewrite restoreCache_emits. cbv zeta. cbn [emitted fst]. fold build rc.
    destruct (String.eqb_spec (CacheFile build) ""); [contradiction |].
    rewrite (extractFiles_available rc "cache" _ Hrc).
    destruct (String.eqb _ ""); cbn; tauto.
  - rewrite (GeneratePreBuild_long info Hlen). cbn [emitted fst].
    pose proof (fileChecks_before_cache info
                  (emitted (restoreCache info) ++
                   flat_map (fun d => emitted (processArtifact info d))
                            (DependsOnBuilds (info_Build info))))
      as [Hbefore _].
    rewrite <- !app_assoc in Hbefore. cbn [app] in Hbefore |- *.
    rewrite Hbefore.
    rewrite restoreCache_emits. cbv zeta. cbn [emitted fst]. fold build.
    destruct (String.eqb_spec (CacheFile build) ""); [contradiction |].
    destruct (String.eqb _ ""); reflexivity.
Qed.

Lemma cache_written_is_cache_restored_witness :
  In (ICommand "gitlab-runner"
               ["archive"; "--file"; "cache/feature.zip";
                "--path"; "dist"; "--untracked"])
     (emitted (@GeneratePostBuild sampleEnv
                 (mkShellScriptInfo
                    (setOptions
                       (<["cache" := index sampleOptions "artifacts"]> ∅)
                       sampleBuild)
                    "gitlab-runner"))) /\
  In (ICommand "gitlab-runner" ["extract"; "--file"; "cache/feature.zip"])
     (emitted (@GeneratePreBuild sampleEnv
                 (mkShellScriptInfo
                    (setOptions
                       (<["cache" := index sampleOptions "artifacts"]> ∅)
                       sampleBuild)
                    "gitlab-runner"))) /\
  hd_error
    (fileChecks []
       (emitted (@GeneratePreBuild sampleEnv
                   (mkShellScriptInfo
                      (setOptions
                         (<["cache" := index sampleOptions "artifacts"]> ∅)
                         sampleBuild)
                      "gitlab-runner")))) =
  Some ("cache/feature.zip", []).
Proof.
  assert (Hlen : 8 <= String.length sampleSha) by (simpl; lia).
  assert (Hrc : "gitlab-runner" <> "") by discriminate.
  assert (Hcache : "cache/feature.zip" <> "") by discriminate.
  exact (@cache_written_is_cache_restored sampleEnv
           (mkShellScriptInfo
              (setOptions (<["cache" := index sampleOptions "artifacts"]> ∅)
                          sampleBuild)
              "gitlab-runner")
           (<["paths" := VList [VString "dist"]]>
              (<["untracked" := VBool true]> ∅))
           Hlen Hrc Hcache eq_refl (or_intror eq_refl)).
Defined.

(** ** Which options the phases read *)

(** X12: replacing the [Options] of a build, all else equal (the variables,
    the project directory and the cache paths included), changes nothing in
    the pre-build and command phases, which do not read them; the post-build
    phase is unchanged as long as the options named by
    [GetSupportedOptions] keep their values. *)
Theorem phases_read_supported_options `{Externals}
    (info : ShellScriptInfo) (options' : gmap string value) :
  let build := info_Build info in
  let build' := setOptions options' build in
  let info' := mkShellScriptInfo build' (RunnerCommand info) in
  GetAllVariables build' = GetAllVariables build ->
  FullProjectDir build' = FullProjectDir build ->
  CacheFile build' = CacheFile build ->
  CacheFileForRef build' "master" = CacheFileForRef build "master" ->
  GeneratePreBuild info' = GeneratePreBuild info /\
  GenerateCommands info' = GenerateCommands info /\
  ((forall key, In key GetSupportedOptions ->
                index options' key = index (Options build) key) ->
   GeneratePostBuild info' = GeneratePostBuild info).
Proof.
  intros build build' info' Hvars Hdir Hcache Hcache2.
  split; [| split].
  - unfold GeneratePreBuild, writeExports, restoreCache.
    cbn [info_Build RunnerCommand info']. fold build build'.
    rewrite Hvars, Hdir, Hcache, Hcache2. reflexivity.
  - unfold GenerateCommands, writeExports, writeCdBuildDir.
    cbn [info_Build RunnerCommand info']. fold build build'.
    rewrite Hvars, Hdir. reflexivity.
  - intros Hopts.
    unfold GeneratePostBuild, writeExports, writeCdBuildDir.
    cbn [info_Build RunnerCommand info']. fold build build'.
    rewrite Hvars, Hdir, Hcache.
    change (Options build') with options'.
    rewrite (Hopts "cache") by (cbn; tauto).
    rewrite (Hopts "artifacts") by (cbn; tauto).
    reflexivity.
Qed.

Lemma phases_read_supported_options_witness :
  @GeneratePostBuild sampleEnv
    (mkShellScriptInfo
       (setOptions (<["image" := VString "ruby:2.1"]> sampleOptions)
                   sampleBuild)
       "gitlab-runner") =
  @GeneratePostBuild sampleEnv sampleInfo.
Proof.
  apply (@phases_read_supported_options sampleEnv sampleInfo
           (<["image" := VString "ruby:2.1"]> sampleOptions));
    try reflexivity.
  intros key [<- | [<- | []]]; reflexivity.
Defined.

(** ** The download command identifies its dependency *)

Lemma Itoa_inj (n m : Z) : Itoa n = Itoa m -> n = m.
Proof.
  unfold Itoa. intros Heq. apply DecimalZ.to_int_inj.
  assert (Hok : forall z, Z.to_int z <> Decimal.Pos Decimal.Nil /\
                          Z.to_int z <> Decimal.Neg Decimal.Nil).
  { intros [| p | p]; split; cbn; try discriminate;
      intros [= Hp]; exact (DecimalPos.Unsigned.to_uint_nonnil p Hp). }
  destruct (Hok n) as [Hn1 Hn2]. destruct (Hok m) as [Hm1 Hm2].
  pose proof (NilZero.isi _ Hn1 Hn2) as Hn.
  pose proof (NilZero.isi _ Hm1 Hm2) as Hm.
  rewrite Heq, Hm in Hn. injection Hn as ->. reflexivity.
Qed.

(** X13: with a companion executable, the command line that
    [downloadArtifacts] emits determines the runner URL, the dependency's
    token and numeric ID and the archive path: two calls that emit the same
    command were made for the same URL, token, ID and path. *)
Theorem downloadArtifacts_command_identifies
    (runner runner' : RunnerConfig) (d d' : BuildInfo)
    (rc path path' c : string) (args : list string) :
  rc <> "" ->
  In (ICommand c args) (emitted (downloadArtifacts runner d rc path)) ->
  In (ICommand c args) (emitted (downloadArtifacts runner' d' rc path')) ->
  URL runner = URL runner' /\ dep_Token d = dep_Token d' /\
  dep_ID d = dep_ID d' /\ path = path'.
Proof.
  intros Hrc. unfold downloadArtifacts.
  destruct (String.eqb_spec rc ""); [contradiction |]. cbn.
  intros [Hin | [Hin | []]]; [discriminate |].
  intros [Hin' | [Hin' | []]]; [discriminate |].
  rewrite <- Hin' in Hin. injection Hin as Hurl Htoken Hid Hpath.
  repeat split; auto using Itoa_inj.
Qed.

Lemma downloadArtifacts_command_identifies_witness :
  URL (Runner sampleBuild) = URL (Runner sampleBuild) /\
  "t11" = "t11" /\ 11%Z = 11%Z /\ "compile.zip" = "compile.zip".
Proof.
  apply (downloadArtifacts_command_identifies
           (Runner sampleBuild) (Runner sampleBuild)
           (mkBuildInfo 11 "compile" "t11" None)
           (mkBuildInfo 11 "build" "t11" None)
           "gitlab-runner" "compile.zip" "compile.zip" "gitlab-runner"
           ["artifacts"; "--download";
            "--url"; "https://gitlab.example.com/ci";
            "--token"; "t11"; "--id"; "11"; "--file"; "compile.zip"]).
  - discriminate.
  - right. left. reflexivity.
  - right. left. reflexivity.
Defined.

(** ** Literal lines are single lines *)

Lemma countNewlines_append (s t : string) :
  countNewlines (String.append s t) = countNewlines s + countNewlines t.
Proof.
  induction s as [| c s IH]; [reflexivity |].
  change (countNewlines (String c (String.append s t)) =
          countNewlines (String c s) + countNewlines t).
  cbn [countNewlines]. rewrite IH. lia.
Qed.

Lemma countNewlines_rev_string (s acc : string) :
  countNewlines (rev_string s acc) = countNewlines s + countNewlines acc.
Proof.
  revert acc. induction s as [| c s IH]; intros acc; [reflexivity |].
  cbn [rev_string]. rewrite IH. cbn [countNewlines]. lia.
Qed.

Lemma trimLeft_suffix_fuel (n : nat) (s : string) :
  String.length s <= n ->
  exists dropped, s = String.append dropped (trimLeft s).
Proof.
  revert s. induction n as [| n IH]; intros s Hn.
  - destruct s; [exists ""; reflexivity | simpl in Hn; lia].
  - destruct s as [| c1 s1]; [exists ""; reflexivity |]. cbn [trimLeft].
    destruct (asciiSpace c1).
    { destruct (IH s1) as [d Hd]; [simpl in Hn; lia |].
      exists (String c1 d).
      change (String c1 s1 = String c1 (String.append d (trimLeft s1))).
      f_equal. exact Hd. }
    destruct s1 as [| c2 s2]; [exists ""; reflexivity |].
    destruct (space2 c1 c2).
    { destruct (IH s2) as [d Hd]; [simpl in Hn; lia |].
      exists (String c1 (String c2 d)).
      change (String c1 (String c2 s2) =
              String c1 (String c2 (String.append d (trimLeft s2)))).
      do 2 f_equal. exact Hd. }
    destruct s2 as [| c3 s3]; [exists ""; reflexivity |].
    destruct (space3 c1 c2 c3); [| exists ""; reflexivity].
    destruct (IH s3) as [d Hd]; [simpl in Hn; lia |].
    exists (String c1 (String c2 (String c3 d))).
    change (String c1 (String c2 (String c3 s3)) =
            String c1 (String c2 (String c3
                         (String.append d (trimLeft s3))))).
    do 3 f_equal. exact Hd.
Qed.

Lemma countNewlines_TrimSpace (s : string) :
  countNewlines (TrimSpace s) <= countNewlines s.
Proof.
  unfold TrimSpace, trimRight.
  destruct (trimLeft_suffix_fuel _ s (le_n _)) as [d Hd].
  set (t := trimLeft s) in *.
  destruct (trimLeftRev_suffix_fuel _ (rev_string t "") (le_n _))
    as [d' Hd'].
  apply (f_equal countNewlines) in Hd, Hd'.
  rewrite countNewlines_append in Hd, Hd'.
  rewrite countNewlines_rev_string in Hd' |- *.
  cbn [countNewlines] in Hd' |- *. lia.
Qed.

Lemma Split_nl_pieces_single (s piece : string) :
  In piece (Split_nl s) -> countNewlines piece = 0.
Proof.
  revert piece. induction s as [| c s IH]; intros piece.
  - cbn. intros [<- | []]. reflexivity.
  - cbn [Split_nl]. destruct (Ascii.eqb c (byte 10)) eqn:Hc.
    + intros [<- | Hin]; [reflexivity | apply IH, Hin].
    + destruct (Split_nl s) as [| first rest].
      * intros [<- | []]. cbn [countNewlines]. rewrite Hc. reflexivity.
      * intros [<- | Hin].
        -- cbn [countNewlines]. rewrite Hc.
           rewrite (IH first) by (left; reflexivity). reflexivity.
        -- apply IH. right. exact Hin.
Qed.

(** X14: a literal line emitted by [GenerateCommands] never contains a
    newline byte: every [Line] holds one physical line of the command
    block. *)
Theorem GenerateCommands_lines_are_single `{Externals}
    (info : ShellScriptInfo) (text : string) :
  In (ILine text) (emitted (GenerateCommands info)) ->
  countNewlines text = 0.
Proof.
  intros Hin.
  assert (Hline : In (ILine text)
                     (List.filter isLine (emitted (GenerateCommands info)))).
  { apply filter_In. split; [exact Hin | reflexivity]. }
  rewrite GenerateCommands_lines in Hline.
  apply in_map_iff in Hline as (line & [= <-] & Hline).
  apply in_map_iff in Hline as (piece & <- & Hpiece).
  pose proof (countNewlines_TrimSpace piece) as Hle.
  rewrite (Split_nl_pieces_single _ _ Hpiece) in Hle. lia.
Qed.

Lemma GenerateCommands_lines_are_single_witness :
  countNewlines "echo hi" = 0.
Proof.
  apply (@GenerateCommands_lines_are_single sampleEnv sampleInfo "echo hi").
  vm_compute. tauto.
Defined.

(** ** How file checks nest *)

Lemma fileChecks_restoreCache `{Externals} (info : ShellScriptInfo)
    (l2 : list Instr) :
  let a := CacheFile (info_Build info) in
  let b := CacheFileForRef (info_Build info) "master" in
  fileChecks [] (emitted (restoreCache info) ++ l2) =
  (if String.eqb a "" then
     if String.eqb b "" then [] else [(b, [])]
   else
     if String.eqb b "" then [(a, [])]
     else [(a, []); (b, [(IIfFile a, true)])]) ++
  fileChecks [] l2.
Proof.
  intros a b. rewrite restoreCache_emits. cbv zeta. cbn [emitted fst].
  fold a b.
  destruct (String.eqb a ""); destruct (String.eqb b "");
    rewrite <- ?app_assoc; cbn [app fileChecks];
    rewrite ?fileChecks_skip by apply extractFiles_plain;
    cbn [app fileChecks tl];
    rewrite ?fileChecks_skip by apply extractFiles_plain;
    reflexivity.
Qed.

(** X15: file-existence checks are shallow.  In the output of
    [GeneratePreBuild] a file check stands at top level or directly in the
    else-branch of another file check, never in a then-branch and never
    inside the [.git] directory conditional; [GenerateCommands] makes no
    file check; [GeneratePostBuild] makes exactly one, on [artifacts.zip]
    at top level, when [Network] is set, and none otherwise. *)
Theorem file_checks_are_shallow `{Externals} (info : ShellScriptInfo) :
  (forall file context,
     In (file, context)
        (fileChecks [] (emitted (GeneratePreBuild info))) ->
     context = [] \/ exists other, context = [(IIfFile other, true)]) /\
  fileChecks [] (emitted (GenerateCommands info)) = [] /\
  fileChecks [] (emitted (GeneratePostBuild info)) =
    match Network (info_Build info) with
    | Some _ => [("artifacts.zip", [])]
    | None => []
    end.
Proof.
  split; [| split].
  - intros file context.
    destruct (le_lt_dec 8 (String.length (Sha (info_Build info))))
      as [Hlen | Hlen].
    + rewrite (GeneratePreBuild_long info Hlen). cbn [emitted fst].
      pose proof (fileChecks_before_cache info
                    (emitted (restoreCache info) ++
                     flat_map (fun d => emitted (processArtifact info d))
                              (DependsOnBuilds (info_Build info))))
        as [Hbefore _].
      rewrite <- !app_assoc in Hbefore. cbn [app] in Hbefore |- *.
      rewrite Hbefore, fileChecks_restoreCache.
      rewrite (fileChecks_plain (flat_map _ _))
        by apply processArtifacts_plain.
      rewrite app_nil_r.
      destruct (String.eqb (CacheFile _) "");
        destruct (String.eqb (CacheFileForRef _ _) "");
        cbn [In]; intros Hin;
        repeat match goal with
               | Hor : _ \/ _ |- _ => destruct Hor as [Hor | Hor]
               | Heq : (_, _) = (_, _) |- _ => injection Heq as <- <-
               | Hf : False |- _ => destruct Hf
               end;
        eauto.
    + rewrite (GeneratePreBuild_short info Hlen). cbn [emitted fst].
      rewrite !fileChecks_skip
        by (apply exports_plain || apply writeTLSCAInfo_plain).
      destruct (AllowGitFetch _); intros [].
  - apply fileChecks_plain. rewrite GenerateCommands_emits.
    cbv zeta. cbn [emitted fst]. rewrite !forallb_app.
    rewrite exports_plain. cbn [forallb plain andb].
    apply forallb_flat_map. intros line.
    destruct (negb _); [destruct (String.eqb line "") |]; reflexivity.
  - rewrite GeneratePostBuild_emits. cbv zeta. cbn [emitted fst].
    rewrite fileChecks_skip by apply exports_plain.
    cbn [app fileChecks].
    rewrite fileChecks_skip by apply writeTLSCAInfo_plain.
    rewrite fileChecks_skip
      by (destruct (String.eqb _ _);
          [reflexivity | apply archiveFiles_plain]).
    destruct (Network _); [| reflexivity].
    rewrite fileChecks_skip by apply archiveFiles_plain.
    cbn [app fileChecks].
    rewrite fileChecks_skip by apply uploadArtifacts_plain. reflexivity.
Qed.

Lemma file_checks_are_shallow_witness :
  [(IIfFile "cache/feature.zip", true)] = ([] : list frame) \/
  exists other,
    [(IIfFile "cache/feature.zip", true)] = [(IIfFile other, true)].
Proof.
  apply (proj1 (@file_checks_are_shallow sampleEnv sampleInfo)
           "cache/master.zip" [(IIfFile "cache/feature.zip", true)]).
  vm_compute. tauto.
Defined.
